(** * pysui: key pairs and address derivation

    A shallow embedding of [abstracts/client_keypair.py] and
    [sui/sui_crypto.py], and the properties of key construction, key-pair
    serialisation and address derivation that hold of it.

    Python values are modelled as follows.
    - [bytes] is [list byte]; [b[i:j]] is [firstn]/[skipn]; [b[0]] raises
      [IndexError] on the empty sequence.
    - [str] is [string]; [len] is [String.length].  A character of code 128
      or more stands for a non-ASCII character.
    - An exception is a value of [exn]; a function that may raise returns in
      the monad [M], which also records, in order, the calls made to the
      base64 decoder and to the hash function.
    - The libraries the module imports (base64, hashlib, PyNaCl, secp256k1)
      are the fields of the class [Externals]; [reference] is an executable
      instance of it. *)

From Stdlib Require Import List String Ascii NArith ZArith Bool Lia.
From Stdlib.Strings Require Import Byte.
From Stdlib Require Import DecimalString.
From Bignums Require Import BigN.
Import ListNotations.

Local Open Scope string_scope.

(** ** Exceptions, results and the call trace *)

Inductive exn : Type :=
| SuiInvalidKeyPair (msg : string)
| SuiInvalidKeystringLength (n : nat)
| NotImplementedError
| IndexError
| ExternalError (name : string).

Inductive result (A : Type) : Type :=
| Ok (a : A)
| Raise (e : exn).

Arguments Ok {A} a.
Arguments Raise {A} e.

(** The calls the module itself makes to [base64.b64decode] and to
    [hashlib.sha3_256]; what a library does inside one of its own calls is
    not recorded. *)
Inductive Event : Type :=
| Call_b64decode (s : string)
| Call_sha3_256 (data : list byte).

Definition M (A : Type) : Type := (list Event * result A)%type.

Definition ret {A : Type} (a : A) : M A := ([], Ok a).

Definition raise {A : Type} (e : exn) : M A := ([], Raise e).

Definition bind {A B : Type} (m : M A) (k : A -> M B) : M B :=
  match m with
  | (t, Ok a) => let (t', r) := k a in ((t ++ t')%list, r)
  | (t, Raise e) => (t, Raise e)
  end.

Notation "x <- m ;; k" := (bind m (fun x => k))
  (at level 61, m at next level, right associativity).
Notation "m ;;; k" := (bind m (fun _ => k))
  (at level 61, right associativity).

Definition trace {A : Type} (m : M A) : list Event := fst m.

Definition outcome {A : Type} (m : M A) : result A := snd m.

Definition is_Call_sha3_256 (e : Event) : bool :=
  match e with
  | Call_sha3_256 _ => true
  | Call_b64decode _ => false
  end.

(** ** Python built-ins *)

(** [str(n)] inside an f-string. *)
Definition str_of_nat (n : nat) : string :=
  NilEmpty.string_of_uint (Nat.to_uint n).

(** The integer value of one element of a [bytes] object. *)
Definition byte_val (b : byte) : Z := Z.of_N (Byte.to_N b).

(** [b[0]] *)
Definition index0 (b : list byte) : M byte :=
  match b with
  | [] => raise IndexError
  | x :: _ => ret x
  end.

Definition hex_digit (n : N) : byte :=
  nth (N.to_nat n)
      [x30; x31; x32; x33; x34; x35; x36; x37;
       x38; x39; x61; x62; x63; x64; x65; x66] x30.

(** [binascii.hexlify]: two lowercase hexadecimal digits per byte. *)
Fixpoint hexlify (b : list byte) : list byte :=
  match b with
  | [] => []
  | x :: r =>
      hex_digit (N.shiftr (Byte.to_N x) 4)
      :: hex_digit (N.land (Byte.to_N x) 15) :: hexlify r
  end.

(** [bytes.decode("utf-8")], on the ASCII text that [hexlify] emits. *)
Definition decode_utf8 (b : list byte) : string := string_of_list_byte b.

Definition is_hex_char (c : ascii) : bool :=
  let n := N_of_ascii c in
  ((48 <=? n) && (n <=? 57) || (97 <=? n) && (n <=? 102))%N.

Fixpoint all_chars (p : ascii -> bool) (s : string) : bool :=
  match s with
  | EmptyString => true
  | String c r => p c && all_chars p r
  end.

(** ** sui/sui_constants.py *)

(** Modelled from the spec: [sui/sui_constants.py] is not among the sources.
    The public- and private-key lengths, the key-string length and the
    address length are the ones of the specification's format table (32/32
    bytes, 33/32 bytes, 88 characters, 40 characters).  The two
    [*_KEYPAIR_BYTES_LEN] constants are the lengths [from_bytes] compares its
    argument with; their values are the ones the functions' own error
    messages state ("Expect bytes len of 64", "Expect bytes len of 65"),
    which are also the only values under which the slices [indata[0:32]],
    [indata[32:]] (resp. 33) can both pass the key constructors. *)
Definition SUI_KEYPAIR_LEN : nat := 88.
Definition ED25519_PUBLICKEY_BYTES_LEN : nat := 32.
Definition ED25519_PRIVATEKEY_BYTES_LEN : nat := 32.
Definition ED25519_KEYPAIR_BYTES_LEN : nat := 64.
Definition SECP256K1_KEYPAIR_BYTES_LEN : nat := 65.
Definition SECP256K1_PUBLICKEY_BYTES_LEN : nat := 33.
Definition SECP256K1_PRIVATEKEY_BYTES_LEN : nat := 32.
Definition SUI_ADDRESS_STRING_LEN : nat := 40.

(** ** External libraries *)

(** What the module calls in the libraries it imports.  A fallible call
    returns [inl name], the name of the exception the library raises, or
    [inr] of its result. *)
Class Externals : Type := {
  (** [base64.b64encode(b).decode()] *)
  b64encode : list byte -> string;
  (** [base64.b64decode(s)] *)
  b64decode : string -> string + list byte;
  (** [hashlib.sha3_256()], one [update], then [digest()] *)
  sha3_256 : list byte -> list byte;
  (** [nacl.signing.VerifyKey(text, encoder=Base64Encoder)] *)
  nacl_VerifyKey : string -> string + unit;
  (** [nacl.signing.SigningKey(text, encoder=Base64Encoder)] *)
  nacl_SigningKey : string -> string + unit;
  (** [secp256k1.PublicKey(b, raw=True)] *)
  secp256k1_PublicKey : list byte -> string + unit;
  (** [secp256k1.PrivateKey(b, raw=True)] *)
  secp256k1_PrivateKey : list byte -> string + unit
}.

Definition external {A : Type} (r : string + A) : M A :=
  match r with
  | inl name => raise (ExternalError name)
  | inr a => ret a
  end.

Definition call_b64decode `{Externals} (s : string) : M (list byte) :=
  ([Call_b64decode s],
   match b64decode s with
   | inl name => Raise (ExternalError name)
   | inr decoded => Ok decoded
   end).

Definition call_sha3_256 `{Externals} (data : list byte) : M (list byte) :=
  ([Call_sha3_256 data], Ok (sha3_256 data)).

(** ** abstracts/client_keypair.py *)

Inductive SignatureScheme : Type :=
| ED25519
| SECP256K1.

(** The [IntEnum] value. *)
Definition scheme_value (s : SignatureScheme) : Z :=
  match s with
  | ED25519 => 0
  | SECP256K1 => 1
  end.

(** [scheme.to_bytes(1, "little")] *)
Definition scheme_to_bytes (s : SignatureScheme) : list byte :=
  match s with
  | ED25519 => [x00]
  | SECP256K1 => [x01]
  end.

Inductive KeyClass : Type :=
| SuiPublicKeyED25519_class
| SuiPrivateKeyED25519_class
| SuiPublicKeySECP256K1_class
| SuiPrivateKeySECP256K1_class.

Module Key.

(** An instance of a subclass of [Key].  The handle of the wrapped
    library ([_verify_key], [_signing_key]) is opaque and left out. *)
Record t : Type := mk {
  __class__ : KeyClass;
  _scheme : SignatureScheme;
  _keybytes : list byte
}.

Definition __init__ (cls : KeyClass) (scheme : SignatureScheme)
    (key_bytes : list byte) : t :=
  {| __class__ := cls; _scheme := scheme; _keybytes := key_bytes |}.

Definition scheme (self : t) : SignatureScheme := _scheme self.

Definition key_bytes (self : t) : list byte := _keybytes self.

Definition to_b64 `{Externals} (self : t) : string :=
  b64encode (key_bytes self).

End Key.

Inductive KeyPairClass : Type :=
| SuiKeyPairED25519_class
| SuiKeyPairSECP256K1_class.

Module KeyPair.

Record t : Type := mk {
  __class__ : KeyPairClass;
  _scheme : SignatureScheme;
  _private_key : Key.t;
  _public_key : Key.t
}.

Definition private_key (self : t) : Key.t := _private_key self.

Definition public_key (self : t) : Key.t := _public_key self.

Definition scheme (self : t) : SignatureScheme := _scheme self.

(** [to_bytes], written out identically in both subclasses. *)
Definition to_bytes (self : t) : list byte :=
  scheme_to_bytes (scheme self)
    ++ Key.key_bytes (public_key self)
    ++ Key.key_bytes (private_key self).

Definition to_b64 `{Externals} (self : t) : string :=
  b64encode (to_bytes self).

End KeyPair.

(** ** sui/sui_crypto.py: Edwards curve keys *)

Module SuiPublicKeyED25519.

Definition __init__ `{Externals} (indata : list byte) : M Key.t :=
  if negb (List.length indata =? ED25519_PUBLICKEY_BYTES_LEN)%nat then
    raise (SuiInvalidKeyPair
             ("Public Key expects " ++ str_of_nat ED25519_PUBLICKEY_BYTES_LEN
                ++ " bytes, found " ++ str_of_nat (List.length indata)))
  else
    let self := Key.__init__ SuiPublicKeyED25519_class ED25519 indata in
    external (nacl_VerifyKey (Key.to_b64 self)) ;;;
    ret self.

End SuiPublicKeyED25519.

Module SuiPrivateKeyED25519.

Definition __init__ `{Externals} (indata : list byte) : M Key.t :=
  let dlen := List.length indata in
  if negb (dlen =? ED25519_PRIVATEKEY_BYTES_LEN)%nat then
    raise (SuiInvalidKeyPair
             ("Private Key expects "
                ++ str_of_nat ED25519_PRIVATEKEY_BYTES_LEN
                ++ " bytes, found " ++ str_of_nat dlen))
  else
    let self := Key.__init__ SuiPrivateKeyED25519_class ED25519 indata in
    external (nacl_SigningKey (Key.to_b64 self)) ;;;
    ret self.

End SuiPrivateKeyED25519.

Module SuiKeyPairED25519.

Definition __init__ `{Externals} (pub_key_bytes priv_key_bytes : list byte)
    : M KeyPair.t :=
  private_key <- SuiPrivateKeyED25519.__init__ priv_key_bytes ;;
  public_key <- SuiPublicKeyED25519.__init__ pub_key_bytes ;;
  ret {| KeyPair.__class__ := SuiKeyPairED25519_class;
         KeyPair._scheme := ED25519;
         KeyPair._private_key := private_key;
         KeyPair._public_key := public_key |}.

Definition from_bytes `{Externals} (indata : list byte) : M KeyPair.t :=
  if negb (List.length indata =? ED25519_KEYPAIR_BYTES_LEN)%nat then
    raise (SuiInvalidKeyPair "Expect bytes len of 64")
  else
    __init__ (firstn 32 indata) (skipn 32 indata).

Definition from_b64 `{Externals} (indata : string) : M KeyPair.t :=
  if negb (String.length indata =? SUI_KEYPAIR_LEN)%nat then
    raise (SuiInvalidKeyPair
             ("Expect str len of " ++ str_of_nat SUI_KEYPAIR_LEN))
  else
    base_decode <- call_b64decode indata ;;
    tag <- index0 base_decode ;;
    if (byte_val tag =? scheme_value ED25519)%Z then
      from_bytes (skipn 1 base_decode)
    else
      raise (SuiInvalidKeyPair "Scheme not ED25519").

End SuiKeyPairED25519.

(** ** sui/sui_crypto.py: secp256k1 keys *)

Module SuiPublicKeySECP256K1.

Definition __init__ `{Externals} (indata : list byte) : M Key.t :=
  if negb (List.length indata =? SECP256K1_PUBLICKEY_BYTES_LEN)%nat then
    raise (SuiInvalidKeyPair
             ("Public Key expects "
                ++ str_of_nat SECP256K1_PUBLICKEY_BYTES_LEN
                ++ " bytes, found " ++ str_of_nat (List.length indata)))
  else
    let self := Key.__init__ SuiPublicKeySECP256K1_class SECP256K1 indata in
    external (secp256k1_PublicKey indata) ;;;
    ret self.

End SuiPublicKeySECP256K1.

Module SuiPrivateKeySECP256K1.

Definition __init__ `{Externals} (indata : list byte) : M Key.t :=
  if negb (List.length indata =? SECP256K1_PRIVATEKEY_BYTES_LEN)%nat then
    raise (SuiInvalidKeyPair
             ("Private Key expects "
                ++ str_of_nat SECP256K1_PRIVATEKEY_BYTES_LEN
                ++ " bytes, found " ++ str_of_nat (List.length indata)))
  else
    let self := Key.__init__ SuiPrivateKeySECP256K1_class SECP256K1 indata in
    external (secp256k1_PrivateKey indata) ;;;
    ret self.

End SuiPrivateKeySECP256K1.

Module SuiKeyPairSECP256K1.

Definition __init__ `{Externals} (pub_key_bytes priv_key_bytes : list byte)
    : M KeyPair.t :=
  public_key <- SuiPublicKeySECP256K1.__init__ pub_key_bytes ;;
  private_key <- SuiPrivateKeySECP256K1.__init__ priv_key_bytes ;;
  ret {| KeyPair.__class__ := SuiKeyPairSECP256K1_class;
         KeyPair._scheme := SECP256K1;
         KeyPair._private_key := private_key;
         KeyPair._public_key := public_key |}.

Definition from_bytes `{Externals} (indata : list byte) : M KeyPair.t :=
  if negb (List.length indata =? SECP256K1_KEYPAIR_BYTES_LEN)%nat then
    raise (SuiInvalidKeyPair "Expect bytes len of 65")
  else
    __init__ (firstn 33 indata) (skipn 33 indata).

(** As in the source, the branch taken on the SECP256K1 tag hands the
    payload to [SuiKeyPairED25519.from_bytes]. *)
Definition from_b64 `{Externals} (indata : string) : M KeyPair.t :=
  if negb (String.length indata =? SUI_KEYPAIR_LEN)%nat then
    raise (SuiInvalidKeyPair
             ("Expect str len of " ++ str_of_nat SUI_KEYPAIR_LEN))
  else
    base_decode <- call_b64decode indata ;;
    tag <- index0 base_decode ;;
    if (byte_val tag =? scheme_value SECP256K1)%Z then
      SuiKeyPairED25519.from_bytes (skipn 1 base_decode)
    else
      raise (SuiInvalidKeyPair "Scheme not SECP256K1").

End SuiKeyPairSECP256K1.

(** ** sui/sui_crypto.py: addresses *)

Module SuiAddress.

(** Modelled from the spec: [SuiType] and [SuiString] ([sui/sui_types.py])
    are not among the sources.  [SuiString] wraps a [str] and [SuiType]
    keeps the wrapped text as [identifier]; an address is rendered as its
    hexadecimal text, "optionally prefixed 0x". *)
Record t : Type := mk {
  identifier : string;
  address : string
}.

Definition __init__ (identifier : string) : t :=
  let identifier :=
    if negb (String.length identifier =? SUI_ADDRESS_STRING_LEN)%nat
    then identifier
    else "0x" ++ identifier in
  {| identifier := identifier; address := identifier |}.

Definition from_bytes `{Externals} (in_bytes : list byte) : M t :=
  first <- index0 in_bytes ;;
  let digest :=
    if (byte_val first =? 0)%Z then firstn 33 in_bytes
    else firstn 34 in_bytes in
  glg_digest <- call_sha3_256 digest ;;
  let hash_bytes := firstn 40 (hexlify glg_digest) in
  ret (__init__ (decode_utf8 hash_bytes)).

Definition from_keypair_string `{Externals} (keystring : string) : M t :=
  decoded <- call_b64decode keystring ;;
  from_bytes decoded.

End SuiAddress.

(** ** sui/sui_crypto.py: module functions *)

Definition keypair_from_keystring `{Externals} (keystring : string)
    : M KeyPair.t :=
  if negb (String.length keystring =? SUI_KEYPAIR_LEN)%nat then
    raise (SuiInvalidKeystringLength (String.length keystring))
  else
    addy_bytes <- call_b64decode keystring ;;
    tag <- index0 addy_bytes ;;
    if (byte_val tag =? scheme_value ED25519)%Z then
      SuiKeyPairED25519.from_bytes (skipn 1 addy_bytes)
    else if (byte_val tag =? scheme_value SECP256K1)%Z then
      SuiKeyPairSECP256K1.from_bytes (skipn 1 addy_bytes)
    else
      raise NotImplementedError.

Definition address_from_keystring `{Externals} (indata : string)
    : M SuiAddress.t :=
  _kp <- keypair_from_keystring indata ;;
  decoded <- call_b64decode indata ;;
  SuiAddress.from_bytes decoded.

(** [create_new_address], from the point where [create_new_keypair] has
    returned [new_kp] (the random generation itself is the libraries'). *)
Definition create_new_address_of `{Externals} (new_kp : KeyPair.t)
    : M (KeyPair.t * SuiAddress.t) :=
  addr <- SuiAddress.from_bytes (KeyPair.to_bytes new_kp) ;;
  ret (new_kp, addr).

(** A key pair that one of the two constructors has returned. *)
Definition constructed `{Externals} (kp : KeyPair.t) : Prop :=
  exists pub priv,
    outcome (SuiKeyPairED25519.__init__ pub priv) = Ok kp
    \/ outcome (SuiKeyPairSECP256K1.__init__ pub priv) = Ok kp.

(** The variant's own [from_bytes] and [from_b64], selected by the class of
    the key pair. *)
Definition from_bytes_of `{Externals} (cls : KeyPairClass)
    : list byte -> M KeyPair.t :=
  match cls with
  | SuiKeyPairED25519_class => SuiKeyPairED25519.from_bytes
  | SuiKeyPairSECP256K1_class => SuiKeyPairSECP256K1.from_bytes
  end.

Definition from_b64_of `{Externals} (cls : KeyPairClass)
    : string -> M KeyPair.t :=
  match cls with
  | SuiKeyPairED25519_class => SuiKeyPairED25519.from_b64
  | SuiKeyPairSECP256K1_class => SuiKeyPairSECP256K1.from_b64
  end.

(** ** A reference instance of the external libraries

    Executable counterparts of the library calls, so that the model runs on
    concrete inputs: CPython's base64 codec (non-strict decoding, as
    [base64.b64decode] is called with its defaults), SHA3-256 (FIPS 202),
    PyNaCl's key wrappers, which accept any 32 bytes, and libsecp256k1's
    checks of a compressed point and of a secret scalar. *)

Module Reference.

Local Open Scope N_scope.

Definition byte_of_N (n : N) : byte :=
  match Byte.of_N (N.land n 255) with
  | Some b => b
  | None => x00
  end.

(** *** base64 *)

Definition table_b2a_base64 : list N :=
  map (fun b => Byte.to_N b)
      (list_byte_of_string
         "ABCDEFGHIJKLMNOPQRSTUVWXYZabcdefghijklmnopqrstuvwxyz0123456789+/").

Definition b2a_char (sextet : N) : ascii :=
  ascii_of_N (nth (N.to_nat sextet) table_b2a_base64 0).

Definition BASE64_PAD : N := 61.

Fixpoint b2a_base64 (data : list byte) : string :=
  match data with
  | [] => EmptyString
  | [a] =>
      let a := Byte.to_N a in
      String (b2a_char (N.shiftr a 2))
        (String (b2a_char (N.shiftl (N.land a 3) 4))
           (String (ascii_of_N BASE64_PAD)
              (String (ascii_of_N BASE64_PAD) EmptyString)))
  | [a; b] =>
      let a := Byte.to_N a in
      let b := Byte.to_N b in
      String (b2a_char (N.shiftr a 2))
        (String (b2a_char (N.lor (N.shiftl (N.land a 3) 4) (N.shiftr b 4)))
           (String (b2a_char (N.shiftl (N.land b 15) 2))
              (String (ascii_of_N BASE64_PAD) EmptyString)))
  | a :: b :: c :: rest =>
      let a := Byte.to_N a in
      let b := Byte.to_N b in
      let c := Byte.to_N c in
      String (b2a_char (N.shiftr a 2))
        (String (b2a_char (N.lor (N.shiftl (N.land a 3) 4) (N.shiftr b 4)))
           (String (b2a_char (N.lor (N.shiftl (N.land b 15) 2) (N.shiftr c 6)))
              (String (b2a_char (N.land c 63)) (b2a_base64 rest))))
  end.

(** The sextet a character stands for, if it is in the alphabet. *)
Definition table_a2b_base64 (c : N) : option N :=
  if (65 <=? c) && (c <=? 90) then Some (c - 65)
  else if (97 <=? c) && (c <=? 122) then Some (c - 97 + 26)
  else if (48 <=? c) && (c <=? 57) then Some (c - 48 + 52)
  else if c =? 43 then Some 62
  else if c =? 47 then Some 63
  else None.

(** The loop of [binascii.a2b_base64] without [strict_mode]: characters
    outside the alphabet are skipped, a complete pad sequence ends the
    input, and an incomplete final quad is an error. *)
Fixpoint a2b_loop (data : list N) (quad_pos : nat) (leftchar : N)
    (pads : nat) (bin_data : list byte) : string + list byte :=
  match data with
  | [] =>
      if (quad_pos =? 0)%nat then inr (rev bin_data)
      else inl "binascii.Error"%string
  | this_ch :: rest =>
      if this_ch =? BASE64_PAD then
        if (2 <=? quad_pos)%nat then
          if (4 <=? quad_pos + S pads)%nat then inr (rev bin_data)
          else a2b_loop rest quad_pos leftchar (S pads) bin_data
        else a2b_loop rest quad_pos leftchar pads bin_data
      else
        match table_a2b_base64 this_ch with
        | None => a2b_loop rest quad_pos leftchar pads bin_data
        | Some v =>
            match quad_pos with
            | 0%nat => a2b_loop rest 1%nat v 0%nat bin_data
            | 1%nat =>
                a2b_loop rest 2%nat (N.land v 15) 0%nat
                  (byte_of_N (N.lor (N.shiftl leftchar 2) (N.shiftr v 4))
                     :: bin_data)
            | 2%nat =>
                a2b_loop rest 3%nat (N.land v 3) 0%nat
                  (byte_of_N (N.lor (N.shiftl leftchar 4) (N.shiftr v 2))
                     :: bin_data)
            | _ =>
                a2b_loop rest 0%nat 0 0%nat
                  (byte_of_N (N.lor (N.shiftl leftchar 6) v) :: bin_data)
            end
        end
  end.

Definition char_codes (s : string) : list N :=
  map N_of_ascii (list_ascii_of_string s).

(** [base64.b64decode] on a [str]: the text is first encoded as ASCII. *)
Definition base64_b64decode (s : string) : string + list byte :=
  let codes := char_codes s in
  if forallb (fun c => c <? 128) codes then a2b_loop codes 0%nat 0 0%nat []
  else inl "ValueError"%string.

(** *** SHA3-256 *)

Definition mask64 : N := 0xFFFFFFFFFFFFFFFF.

Definition rotl64 (x n : N) : N :=
  N.land (N.lor (N.shiftl x n) (N.shiftr x (64 - n))) mask64.

Definition lane (st : list N) (x y : nat) : N :=
  nth (x mod 5 + 5 * (y mod 5)) st 0.

Definition theta (st : list N) : list N :=
  let C := map (fun x =>
                  N.lxor (lane st x 0)
                    (N.lxor (lane st x 1)
                       (N.lxor (lane st x 2)
                          (N.lxor (lane st x 3) (lane st x 4)))))
               (seq 0 5) in
  let D := map (fun x =>
                  N.lxor (nth ((x + 4) mod 5) C 0)
                    (rotl64 (nth ((x + 1) mod 5) C 0) 1))
               (seq 0 5) in
  map (fun i => N.lxor (nth i st 0) (nth (i mod 5) D 0)) (seq 0 25).

Definition rotation_offsets : list N :=
  [ 0;  1; 62; 28; 27;
   36; 44;  6; 55; 20;
    3; 10; 43; 25; 39;
   41; 45; 15; 21;  8;
   18;  2; 61; 56; 14].

(** rho and pi: the lane at [(x, y)] is rotated and moved to
    [(y, 2x + 3y)]; read backwards, position [(X, Y)] receives the lane of
    [(X + 3Y, X)]. *)
Definition rho_pi (st : list N) : list N :=
  map (fun i =>
         let X := (i mod 5)%nat in
         let Y := (i / 5)%nat in
         let x := ((X + 3 * Y) mod 5)%nat in
         let y := X in
         rotl64 (lane st x y) (nth (x + 5 * y) rotation_offsets 0))
      (seq 0 25).

Definition chi (st : list N) : list N :=
  map (fun i =>
         let x := (i mod 5)%nat in
         let y := (i / 5)%nat in
         N.lxor (lane st x y)
           (N.land (N.lxor (lane st (x + 1) y) mask64) (lane st (x + 2) y)))
      (seq 0 25).

Definition iota (rc : N) (st : list N) : list N :=
  match st with
  | [] => []
  | a :: r => N.lxor a rc :: r
  end.

Definition round_constants : list N :=
  [0x0000000000000001; 0x0000000000008082; 0x800000000000808A;
   0x8000000080008000; 0x000000000000808B; 0x0000000080000001;
   0x8000000080008081; 0x8000000000008009; 0x000000000000008A;
   0x0000000000000088; 0x0000000080008009; 0x000000008000000A;
   0x000000008000808B; 0x800000000000008B; 0x8000000000008089;
   0x8000000000008003; 0x8000000000008002; 0x8000000000000080;
   0x000000000000800A; 0x800000008000000A; 0x8000000080008081;
   0x8000000000008080; 0x0000000080000001; 0x8000000080008008].

Definition keccak_f (st : list N) : list N :=
  fold_left (fun s rc => iota rc (chi (rho_pi (theta s)))) round_constants st.

Definition rate : nat := 136.

(** The message followed by the SHA-3 domain bits and the pad10*1 rule. *)
Definition pad (msg : list byte) : list byte :=
  let q := (rate - List.length msg mod rate)%nat in
  if (q =? 1)%nat then (msg ++ [x86])%list
  else (msg ++ [x06] ++ repeat x00 (q - 2) ++ [x80])%list.

Definition lane_of_bytes (b : list byte) : N :=
  fold_right (fun x acc => Byte.to_N x + 256 * acc) 0 b.

Definition xor_block (st : list N) (block : list byte) : list N :=
  map (fun i =>
         if (i <? 17)%nat
         then N.lxor (nth i st 0)
                (lane_of_bytes (firstn 8 (skipn (8 * i) block)))
         else nth i st 0)
      (seq 0 25).

Fixpoint absorb (blocks : nat) (data : list byte) (st : list N) : list N :=
  match blocks with
  | O => st
  | S k => absorb k (skipn rate data) (keccak_f (xor_block st (firstn rate data)))
  end.

Definition hashlib_sha3_256 (msg : list byte) : list byte :=
  let data := pad msg in
  let st := absorb (List.length data / rate) data (repeat 0 25) in
  map (fun i =>
         byte_of_N (N.shiftr (nth (i / 8) st 0) (8 * N.of_nat (i mod 8))))
      (seq 0 32).

(** *** PyNaCl *)

(** [VerifyKey] and [SigningKey] decode their base64 text and accept any
    32 bytes. *)
Definition nacl_key (text : string) : string + unit :=
  match base64_b64decode text with
  | inl name => inl name
  | inr raw =>
      if (List.length raw =? 32)%nat then inr tt
      else inl "nacl.exceptions.ValueError"%string
  end.

(** *** secp256k1 *)

Definition field_p : N :=
  0xFFFFFFFFFFFFFFFFFFFFFFFFFFFFFFFFFFFFFFFFFFFFFFFFFFFFFFFEFFFFFC2F.

Definition group_n : N :=
  0xFFFFFFFFFFFFFFFFFFFFFFFFFFFFFFFEBAAEDCE6AF48A03BBFD25E8CD0364141.

Definition int_from_bytes_big (b : list byte) : N :=
  fold_left (fun acc x => 256 * acc + Byte.to_N x) b 0.

Fixpoint pow_mod_pos (b : bigN) (e : positive) (m : bigN) : bigN :=
  match e with
  | xH => BigN.modulo b m
  | xO e' =>
      let h := pow_mod_pos b e' m in BigN.modulo (BigN.mul h h) m
  | xI e' =>
      let h := pow_mod_pos b e' m in
      BigN.modulo (BigN.mul (BigN.mul h h) b) m
  end.

(** Whether [a] is a square modulo the field prime, which is 3 modulo 4:
    the candidate root is [a ^ ((p + 1) / 4)]. *)
Definition is_square_mod_p (a : bigN) : bool :=
  let p := BigN.of_N field_p in
  match N.shiftr (field_p + 1) 2 with
  | Npos e =>
      let y := pow_mod_pos a e p in
      BigN.eqb (BigN.modulo (BigN.mul y y) p) (BigN.modulo a p)
  | N0 => false
  end.

(** [secp256k1_ec_pubkey_parse] on the compressed form: header 2 or 3, an
    abscissa below the field prime, and [x^3 + 7] a square. *)
Definition ec_pubkey_parse (b : list byte) : bool :=
  match b with
  | header :: xs =>
      let x := int_from_bytes_big xs in
      let xb := BigN.of_N x in
      (List.length xs =? 32)%nat
      && ((Byte.to_N header =? 2) || (Byte.to_N header =? 3))
      && (x <? field_p)
      && is_square_mod_p
           (BigN.add (BigN.mul (BigN.mul xb xb) xb) (BigN.of_N 7))
  | [] => false
  end.

Definition secp256k1_PublicKey_raw (b : list byte) : string + unit :=
  if ec_pubkey_parse b then inr tt else inl "Exception"%string.

(** [secp256k1_ec_seckey_verify]: a scalar in [1, n - 1]. *)
Definition secp256k1_PrivateKey_raw (b : list byte) : string + unit :=
  let k := int_from_bytes_big b in
  if (List.length b =? 32)%nat && (0 <? k) && (k <? group_n) then inr tt
  else inl "Exception"%string.

End Reference.

Definition reference : Externals := {|
  b64encode := Reference.b2a_base64;
  b64decode := Reference.base64_b64decode;
  sha3_256 := Reference.hashlib_sha3_256;
  nacl_VerifyKey := Reference.nacl_key;
  nacl_SigningKey := Reference.nacl_key;
  secp256k1_PublicKey := Reference.secp256k1_PublicKey_raw;
  secp256k1_PrivateKey := Reference.secp256k1_PrivateKey_raw
|}.

(** The constructor of each key class, the scheme the class passes to
    [Key.__init__], and the length it compares its argument with. *)
Definition key_constructor `{Externals} (cls : KeyClass)
    : list byte -> M Key.t :=
  match cls with
  | SuiPublicKeyED25519_class => SuiPublicKeyED25519.__init__
  | SuiPrivateKeyED25519_class => SuiPrivateKeyED25519.__init__
  | SuiPublicKeySECP256K1_class => SuiPublicKeySECP256K1.__init__
  | SuiPrivateKeySECP256K1_class => SuiPrivateKeySECP256K1.__init__
  end.

Definition class_scheme (cls : KeyClass) : SignatureScheme :=
  match cls with
  | SuiPublicKeyED25519_class | SuiPrivateKeyED25519_class => ED25519
  | SuiPublicKeySECP256K1_class | SuiPrivateKeySECP256K1_class => SECP256K1
  end.

Definition class_length (cls : KeyClass) : nat :=
  match cls with
  | SuiPublicKeyED25519_class => ED25519_PUBLICKEY_BYTES_LEN
  | SuiPrivateKeyED25519_class => ED25519_PRIVATEKEY_BYTES_LEN
  | SuiPublicKeySECP256K1_class => SECP256K1_PUBLICKEY_BYTES_LEN
  | SuiPrivateKeySECP256K1_class => SECP256K1_PRIVATEKEY_BYTES_LEN
  end.

Definition class_role (cls : KeyClass) : string :=
  match cls with
  | SuiPublicKeyED25519_class | SuiPublicKeySECP256K1_class => "Public"
  | SuiPrivateKeyED25519_class | SuiPrivateKeySECP256K1_class => "Private"
  end.

(** The library call with which the constructor of a key class ends. *)
Definition class_library_check `{Externals} (cls : KeyClass)
    (indata : list byte) : string + unit :=
  match cls with
  | SuiPublicKeyED25519_class => nacl_VerifyKey (b64encode indata)
  | SuiPrivateKeyED25519_class => nacl_SigningKey (b64encode indata)
  | SuiPublicKeySECP256K1_class => secp256k1_PublicKey indata
  | SuiPrivateKeySECP256K1_class => secp256k1_PrivateKey indata
  end.

(** The two key-pair classes: the constructor, the scheme it sets, the
    classes of the keys it builds, and the message of [from_bytes]. *)
Definition keypair_constructor `{Externals} (cls : KeyPairClass)
    : list byte -> list byte -> M KeyPair.t :=
  match cls with
  | SuiKeyPairED25519_class => SuiKeyPairED25519.__init__
  | SuiKeyPairSECP256K1_class => SuiKeyPairSECP256K1.__init__
  end.

Definition keypair_scheme (cls : KeyPairClass) : SignatureScheme :=
  match cls with
  | SuiKeyPairED25519_class => ED25519
  | SuiKeyPairSECP256K1_class => SECP256K1
  end.

Definition public_key_class (cls : KeyPairClass) : KeyClass :=
  match cls with
  | SuiKeyPairED25519_class => SuiPublicKeyED25519_class
  | SuiKeyPairSECP256K1_class => SuiPublicKeySECP256K1_class
  end.

Definition private_key_class (cls : KeyPairClass) : KeyClass :=
  match cls with
  | SuiKeyPairED25519_class => SuiPrivateKeyED25519_class
  | SuiKeyPairSECP256K1_class => SuiPrivateKeySECP256K1_class
  end.

Definition keypair_bytes_length (cls : KeyPairClass) : nat :=
  match cls with
  | SuiKeyPairED25519_class => ED25519_KEYPAIR_BYTES_LEN
  | SuiKeyPairSECP256K1_class => SECP256K1_KEYPAIR_BYTES_LEN
  end.

Definition from_bytes_message (cls : KeyPairClass) : string :=
  match cls with
  | SuiKeyPairED25519_class => "Expect bytes len of 64"
  | SuiKeyPairSECP256K1_class => "Expect bytes len of 65"
  end.

(** [from_bytes] with the length it compares its argument with left open,
    that length being a constant of the module that is not among the
    sources; the slices are the literals of the source. *)
Definition from_bytes_at `{Externals} (cls : KeyPairClass)
    (keypair_bytes_len : nat) (indata : list byte) : M KeyPair.t :=
  if negb (List.length indata =? keypair_bytes_len)%nat then
    raise (SuiInvalidKeyPair (from_bytes_message cls))
  else
    match cls with
    | SuiKeyPairED25519_class =>
        SuiKeyPairED25519.__init__ (firstn 32 indata) (skipn 32 indata)
    | SuiKeyPairSECP256K1_class =>
        SuiKeyPairSECP256K1.__init__ (firstn 33 indata) (skipn 33 indata)
    end.

(** The object a key-pair constructor assembles from accepted bytes. *)
Definition keypair_object (cls : KeyPairClass) (pub priv : list byte)
    : KeyPair.t :=
  {| KeyPair.__class__ := cls;
     KeyPair._scheme := keypair_scheme cls;
     KeyPair._private_key :=
       Key.__init__ (private_key_class cls) (keypair_scheme cls) priv;
     KeyPair._public_key :=
       Key.__init__ (public_key_class cls) (keypair_scheme cls) pub |}.

(** What the codec is asked to do on the serialisation of [kp]: produce
    text of the key-string length that decodes back to the same bytes. *)
Definition codec_faithful_on `{Externals} (kp : KeyPair.t) : Prop :=
  String.length (KeyPair.to_b64 kp) = SUI_KEYPAIR_LEN
  /\ b64decode (KeyPair.to_b64 kp) = inr (KeyPair.to_bytes kp).

(** The size of a SHA3-256 digest. *)
Definition digest_size_law `{Externals} : Prop :=
  forall data : list byte, List.length (sha3_256 data) = 32.

(** The digest window of [SuiAddress.from_bytes]. *)
Definition digest_window (in_bytes : list byte) : list byte :=
  match in_bytes with
  | [] => []
  | first :: _ =>
      if (byte_val first =? 0)%Z then firstn 33 in_bytes
      else firstn 34 in_bytes
  end.

(** The first 40 hexadecimal characters of the digest of [window]. *)
Definition hex40 `{Externals} (window : list byte) : string :=
  decode_utf8 (firstn 40 (hexlify (sha3_256 window))).

(** ** sui/sui_crypto.py: generation *)

(** What the libraries' generators hand back: the bytes of the signing key
    [SigningKey.generate()] returns and of its [verify_key], and, for
    [secp256k1.PrivateKey()], [pubkey.serialize(compressed=True)] and
    [private_key].  The random source is the libraries'; the functions
    below are the source's from the point where it has answered. *)
Record Generated : Type := {
  signer_bytes : list byte;
  verifier_bytes : list byte;
  pubkey_serialized : list byte;
  signer_private_key : list byte
}.

(** [SuiKeyPairED25519.unique] *)
Definition SuiKeyPairED25519_unique `{Externals} (g : Generated)
    : M KeyPair.t :=
  SuiKeyPairED25519.__init__ (verifier_bytes g) (signer_bytes g).

(** [SuiKeyPairSECP256K1.unique] *)
Definition SuiKeyPairSECP256K1_unique `{Externals} (g : Generated)
    : M KeyPair.t :=
  SuiKeyPairSECP256K1.__init__ (pubkey_serialized g) (signer_private_key g).

(** The [case _] of the source is not reachable from a member of the
    enumeration. *)
Definition create_new_keypair `{Externals} (g : Generated)
    (keytype : SignatureScheme) : M KeyPair.t :=
  match keytype with
  | ED25519 => SuiKeyPairED25519_unique g
  | SECP256K1 => SuiKeyPairSECP256K1_unique g
  end.

Definition create_new_address `{Externals} (g : Generated)
    (keytype : SignatureScheme) : M (KeyPair.t * SuiAddress.t) :=
  new_kp <- create_new_keypair g keytype ;;
  addr <- SuiAddress.from_bytes (KeyPair.to_bytes new_kp) ;;
  ret (new_kp, addr).

(** The message of a [from_b64] that finds another scheme's tag. *)
Definition from_b64_message (cls : KeyPairClass) : string :=
  match cls with
  | SuiKeyPairED25519_class => "Scheme not ED25519"
  | SuiKeyPairSECP256K1_class => "Scheme not SECP256K1"
  end.

(** ** Sample inputs *)

Module Sample.

Definition ed25519_public : list byte := repeat x11 32.
Definition ed25519_private : list byte := repeat x22 32.

(** The generator of secp256k1 in compressed form, and the scalar 1. *)
Definition secp256k1_public : list byte :=
  [x02;
   x79; xbe; x66; x7e; xf9; xdc; xbb; xac; x55; xa0; x62; x95; xce; x87;
   x0b; x07; x02; x9b; xfc; xdb; x2d; xce; x28; xd9; x59; xf2; x81; x5b;
   x16; xf8; x17; x98].
Definition secp256k1_private : list byte := (repeat x00 31 ++ [x01])%list.
Definition secp256k1_private' : list byte := (repeat x00 31 ++ [x02])%list.

Definition ed25519_keypair : KeyPair.t :=
  keypair_object SuiKeyPairED25519_class ed25519_public ed25519_private.


Definition secp256k1_keypair : KeyPair.t :=
  keypair_object SuiKeyPairSECP256K1_class secp256k1_public secp256k1_private.

Definition secp256k1_keypair' : KeyPair.t :=
  keypair_object SuiKeyPairSECP256K1_class secp256k1_public
    secp256k1_private'.

(** [to_b64()] of [ed25519_keypair]. *)
Definition ed25519_keystring : string :=
  Eval vm_compute in Reference.b2a_base64 (KeyPair.to_bytes ed25519_keypair).

(** [to_b64()] of [secp256k1_keypair]. *)
Definition secp256k1_keystring : string :=
  Eval vm_compute in Reference.b2a_base64 (KeyPair.to_bytes secp256k1_keypair).

(** 88 characters that decode to 66 zero bytes. *)
Definition zeros_keystring : string :=
  Eval vm_compute in string_of_list_byte (repeat x41 88).

Definition generated : Generated :=
  {| signer_bytes := ed25519_private;
     verifier_bytes := ed25519_public;
     pubkey_serialized := secp256k1_public;
     signer_private_key := secp256k1_private |}.

(** 88 characters outside the base64 alphabet. *)
Definition blank_keystring : string :=
  Eval vm_compute in string_of_list_byte (repeat x21 88).

End Sample.

(** * Properties *)

(** ** The monad *)

Lemma bind_ret_l {A B : Type} (a : A) (k : A -> M B) :
  bind (ret a) k = k a.
Proof. unfold bind, ret. destruct (k a). reflexivity. Qed.

Lemma bind_raise {A B : Type} (e : exn) (k : A -> M B) :
  bind (raise e) k = raise e.
Proof. reflexivity. Qed.

Lemma bind_Ok {A B : Type} (t : list Event) (a : A) (k : A -> M B) :
  bind (t, Ok a) k = ((t ++ trace (k a))%list, outcome (k a)).
Proof. unfold bind, trace, outcome. destruct (k a). reflexivity. Qed.

Lemma bind_Raise {A B : Type} (t : list Event) (e : exn) (k : A -> M B) :
  bind (t, Raise e) k = (t, Raise e).
Proof. reflexivity. Qed.

Lemma outcome_pair {A : Type} (t : list Event) (r : result A) :
  outcome (t, r) = r.
Proof. reflexivity. Qed.

Lemma trace_pair {A : Type} (t : list Event) (r : result A) :
  trace (t, r) = t.
Proof. reflexivity. Qed.

Lemma M_eta {A : Type} (m : M A) : m = (trace m, outcome m).
Proof. destruct m. reflexivity. Qed.

Ltac unfold_constants :=
  unfold SUI_KEYPAIR_LEN, ED25519_PUBLICKEY_BYTES_LEN,
    ED25519_PRIVATEKEY_BYTES_LEN, ED25519_KEYPAIR_BYTES_LEN,
    SECP256K1_KEYPAIR_BYTES_LEN, SECP256K1_PUBLICKEY_BYTES_LEN,
    SECP256K1_PRIVATEKEY_BYTES_LEN, SUI_ADDRESS_STRING_LEN in *.

(** ** Key constructors *)

Section Keys.

Context {X : Externals}.

(** Every key constructor is a length test followed by the library's
    check, and calls neither the decoder nor the hash. *)
Lemma key_constructor_unfold (cls : KeyClass) (indata : list byte) :
  key_constructor cls indata =
  if negb (List.length indata =? class_length cls)%nat then
    raise (SuiInvalidKeyPair
             (class_role cls ++ " Key expects " ++ str_of_nat (class_length cls)
                ++ " bytes, found " ++ str_of_nat (List.length indata)))
  else
    match class_library_check cls indata with
    | inl name => raise (ExternalError name)
    | inr _ => ret (Key.__init__ cls (class_scheme cls) indata)
    end.
Proof.
  destruct cls; cbn [key_constructor class_length class_role class_scheme
                     class_library_check];
    [ unfold SuiPublicKeyED25519.__init__
    | unfold SuiPrivateKeyED25519.__init__
    | unfold SuiPublicKeySECP256K1.__init__
    | unfold SuiPrivateKeySECP256K1.__init__ ];
    cbv zeta;
    match goal with
    | |- context [negb ?c] => destruct c
    end; cbn [negb]; try reflexivity;
    unfold Key.to_b64, Key.key_bytes, Key.__init__; cbn [Key._keybytes];
    match goal with
    | |- context [external ?c] => destruct c as [name | u]
    end; reflexivity.
Qed.

Lemma key_constructor_trace (cls : KeyClass) (indata : list byte) :
  trace (key_constructor cls indata) = [].
Proof.
  rewrite key_constructor_unfold.
  destruct (negb _); [reflexivity |].
  destruct (class_library_check cls indata); reflexivity.
Qed.

Lemma key_constructor_Ok (cls : KeyClass) (indata : list byte) (k : Key.t) :
  outcome (key_constructor cls indata) = Ok k <->
  List.length indata = class_length cls
  /\ class_library_check cls indata = inr tt
  /\ k = Key.__init__ cls (class_scheme cls) indata.
Proof.
  rewrite key_constructor_unfold.
  destruct (Nat.eqb_spec (List.length indata) (class_length cls)) as [E | E];
    cbn [negb].
  - destruct (class_library_check cls indata) as [name | []]; cbn.
    + split; [discriminate | intros (_ & H & _); discriminate].
    + split.
      * intros H. injection H as <-. auto.
      * intros (_ & _ & ->). reflexivity.
  - cbn. split; [discriminate | intros (H & _); contradiction].
Qed.

End Keys.

(** ** Keys keep what they were built from *)

(** C10.  A key that a constructor of any of the four key classes has
    returned reports, through [key_bytes], exactly the byte sequence the
    constructor was given (not the tag-prefixed form, not a prefix of it)
    and, through [scheme], the scheme of its class; [to_b64] is the
    encoding of those same bytes, and being a function of the key it
    leaves both untouched. *)
Theorem key_reports_construction_arguments
    {X : Externals} (cls : KeyClass) (indata : list byte) (k : Key.t) :
  outcome (key_constructor cls indata) = Ok k ->
  Key.key_bytes k = indata
  /\ Key.scheme k = class_scheme cls
  /\ Key.__class__ k = cls
  /\ Key.to_b64 k = b64encode indata
  /\ List.length (Key.key_bytes k) = class_length cls.
Proof.
  intros H. apply key_constructor_Ok in H. destruct H as (L & _ & ->).
  unfold Key.to_b64. cbn. auto.
Qed.

(** The base class stores its two arguments as they are. *)
Lemma Key_init_projections (cls : KeyClass) (s : SignatureScheme)
    (b : list byte) :
  Key.key_bytes (Key.__init__ cls s b) = b
  /\ Key.scheme (Key.__init__ cls s b) = s.
Proof. split; reflexivity. Qed.

(** ** Length errors of the key constructors *)

(** C6.  Whatever the key class, a byte sequence whose length is not the
    class's mandated length makes the constructor raise
    [SuiInvalidKeyPair] with the message naming both lengths; no library
    is called and no key is returned.  The lengths one below and one above
    the mandated one are instances. *)
Theorem key_constructor_wrong_length
    {X : Externals} (cls : KeyClass) (indata : list byte) :
  List.length indata <> class_length cls ->
  key_constructor cls indata =
  ([], Raise (SuiInvalidKeyPair
                (class_role cls ++ " Key expects "
                   ++ str_of_nat (class_length cls)
                   ++ " bytes, found " ++ str_of_nat (List.length indata)))).
Proof.
  intros H. rewrite key_constructor_unfold.
  destruct (Nat.eqb_spec (List.length indata) (class_length cls));
    [contradiction | reflexivity].
Qed.

Lemma key_constructor_off_by_one
    {X : Externals} (cls : KeyClass) (indata : list byte) :
  List.length indata = class_length cls - 1
  \/ List.length indata = class_length cls + 1 ->
  exists msg, key_constructor cls indata = ([], Raise (SuiInvalidKeyPair msg)).
Proof.
  intros H. eexists. rewrite key_constructor_unfold.
  destruct (Nat.eqb_spec (List.length indata) (class_length cls)) as [E | E];
    [| reflexivity].
  destruct cls; cbn in *; unfold_constants; lia.
Qed.

(** ** The length test of the decoders *)

Lemma keypair_from_keystring_wrong_length
    {X : Externals} (s : string) :
  String.length s <> SUI_KEYPAIR_LEN ->
  keypair_from_keystring s
  = ([], Raise (SuiInvalidKeystringLength (String.length s))).
Proof.
  intros H. unfold keypair_from_keystring.
  destruct (Nat.eqb_spec (String.length s) SUI_KEYPAIR_LEN);
    [contradiction | reflexivity].
Qed.

(** C7.  A string whose length is not [SUI_KEYPAIR_LEN] is rejected by
    both [from_b64] methods and by [keypair_from_keystring] with their
    length error, and the call trace is empty: the base64 decoder has not
    been called. *)
Theorem wrong_length_rejected_before_decoding
    {X : Externals} (s : string) :
  String.length s <> SUI_KEYPAIR_LEN ->
  SuiKeyPairED25519.from_b64 s
    = ([], Raise (SuiInvalidKeyPair "Expect str len of 88"))
  /\ SuiKeyPairSECP256K1.from_b64 s
    = ([], Raise (SuiInvalidKeyPair "Expect str len of 88"))
  /\ keypair_from_keystring s
    = ([], Raise (SuiInvalidKeystringLength (String.length s))).
Proof.
  intros H.
  unfold SuiKeyPairED25519.from_b64, SuiKeyPairSECP256K1.from_b64,
    keypair_from_keystring.
  destruct (Nat.eqb_spec (String.length s) SUI_KEYPAIR_LEN);
    [contradiction |].
  cbn [negb]. repeat split; reflexivity.
Qed.

(** ** Key-pair constructors and [from_bytes] *)

Section KeyPairs.

Context {X : Externals}.

Lemma keypair_constructor_unfold (cls : KeyPairClass)
    (pub priv : list byte) :
  keypair_constructor cls pub priv =
  ([], match cls with
       | SuiKeyPairED25519_class =>
           match outcome (key_constructor (private_key_class cls) priv) with
           | Raise e => Raise e
           | Ok _ =>
               match outcome (key_constructor (public_key_class cls) pub) with
               | Raise e => Raise e
               | Ok _ => Ok (keypair_object cls pub priv)
               end
           end
       | SuiKeyPairSECP256K1_class =>
           match outcome (key_constructor (public_key_class cls) pub) with
           | Raise e => Raise e
           | Ok _ =>
               match outcome (key_constructor (private_key_class cls) priv) with
               | Raise e => Raise e
               | Ok _ => Ok (keypair_object cls pub priv)
               end
           end
       end).
Proof.
  destruct cls; cbn [keypair_constructor private_key_class public_key_class].
  - unfold SuiKeyPairED25519.__init__.
    change SuiPrivateKeyED25519.__init__
      with (key_constructor SuiPrivateKeyED25519_class).
    change SuiPublicKeyED25519.__init__
      with (key_constructor SuiPublicKeyED25519_class).
    rewrite (M_eta (key_constructor SuiPrivateKeyED25519_class priv)),
      key_constructor_trace.
    destruct (outcome (key_constructor SuiPrivateKeyED25519_class priv))
      as [sk | e] eqn:Hs; [| reflexivity].
    rewrite bind_Ok.
    rewrite (M_eta (key_constructor SuiPublicKeyED25519_class pub)),
      key_constructor_trace.
    destruct (outcome (key_constructor SuiPublicKeyED25519_class pub))
      as [pk | e] eqn:Hp; [| reflexivity].
    apply key_constructor_Ok in Hs, Hp.
    destruct Hs as (_ & _ & ->), Hp as (_ & _ & ->). reflexivity.
  - unfold SuiKeyPairSECP256K1.__init__.
    change SuiPrivateKeySECP256K1.__init__
      with (key_constructor SuiPrivateKeySECP256K1_class).
    change SuiPublicKeySECP256K1.__init__
      with (key_constructor SuiPublicKeySECP256K1_class).
    rewrite (M_eta (key_constructor SuiPublicKeySECP256K1_class pub)),
      key_constructor_trace.
    destruct (outcome (key_constructor SuiPublicKeySECP256K1_class pub))
      as [pk | e] eqn:Hp; [| reflexivity].
    rewrite bind_Ok.
    rewrite (M_eta (key_constructor SuiPrivateKeySECP256K1_class priv)),
      key_constructor_trace.
    destruct (outcome (key_constructor SuiPrivateKeySECP256K1_class priv))
      as [sk | e] eqn:Hs; [| reflexivity].
    apply key_constructor_Ok in Hs, Hp.
    destruct Hs as (_ & _ & ->), Hp as (_ & _ & ->). reflexivity.
Qed.

Lemma keypair_constructor_trace (cls : KeyPairClass) (pub priv : list byte) :
  trace (keypair_constructor cls pub priv) = [].
Proof. rewrite keypair_constructor_unfold. reflexivity. Qed.

(** A key-pair constructor returns exactly when both key constructors
    accept their argument, and then returns [keypair_object]. *)
Lemma keypair_constructor_Ok (cls : KeyPairClass) (pub priv : list byte)
    (kp : KeyPair.t) :
  outcome (keypair_constructor cls pub priv) = Ok kp <->
  List.length pub = class_length (public_key_class cls)
  /\ class_library_check (public_key_class cls) pub = inr tt
  /\ List.length priv = class_length (private_key_class cls)
  /\ class_library_check (private_key_class cls) priv = inr tt
  /\ kp = keypair_object cls pub priv.
Proof.
  rewrite keypair_constructor_unfold. unfold outcome at 1. cbn [snd].
  split.
  - intros H.
    destruct cls;
      repeat match type of H with
      | context [outcome (key_constructor ?c ?b)] =>
          let E := fresh "E" in
          destruct (outcome (key_constructor c b)) eqn:E; try discriminate
      end;
      repeat match goal with
      | E : outcome (key_constructor _ _) = Ok _ |- _ =>
          apply key_constructor_Ok in E; destruct E as (? & ? & _)
      end;
      injection H as <-; auto.
  - intros (L1 & C1 & L2 & C2 & ->).
    assert (Hp : outcome (key_constructor (public_key_class cls) pub)
                 = Ok (Key.__init__ (public_key_class cls)
                         (class_scheme (public_key_class cls)) pub))
      by (apply key_constructor_Ok; auto).
    assert (Hs : outcome (key_constructor (private_key_class cls) priv)
                 = Ok (Key.__init__ (private_key_class cls)
                         (class_scheme (private_key_class cls)) priv))
      by (apply key_constructor_Ok; auto).
    destruct cls; rewrite Hp, Hs; reflexivity.
Qed.

Lemma constructed_iff (kp : KeyPair.t) :
  constructed kp <->
  exists cls pub priv, outcome (keypair_constructor cls pub priv) = Ok kp.
Proof.
  split.
  - intros (pub & priv & [H | H]).
    + exists SuiKeyPairED25519_class, pub, priv. exact H.
    + exists SuiKeyPairSECP256K1_class, pub, priv. exact H.
  - intros (cls & pub & priv & H). exists pub, priv.
    destruct cls; [left | right]; exact H.
Qed.

(** What a constructed key pair looks like. *)
Lemma constructed_inv (kp : KeyPair.t) :
  constructed kp ->
  exists cls pub priv,
    kp = keypair_object cls pub priv
    /\ outcome (keypair_constructor cls pub priv) = Ok kp
    /\ List.length pub = class_length (public_key_class cls)
    /\ List.length priv = class_length (private_key_class cls).
Proof.
  intros H. apply constructed_iff in H. destruct H as (cls & pub & priv & H).
  exists cls, pub, priv.
  pose proof H as H'. apply keypair_constructor_Ok in H'.
  destruct H' as (? & _ & ? & _ & ?). auto.
Qed.

Lemma from_bytes_of_unfold (cls : KeyPairClass) (indata : list byte) :
  from_bytes_of cls indata =
  if negb (List.length indata =? keypair_bytes_length cls)%nat then
    raise (SuiInvalidKeyPair (from_bytes_message cls))
  else
    keypair_constructor cls
      (firstn (class_length (public_key_class cls)) indata)
      (skipn (class_length (public_key_class cls)) indata).
Proof. destruct cls; reflexivity. Qed.

Lemma from_bytes_of_trace (cls : KeyPairClass) (indata : list byte) :
  trace (from_bytes_of cls indata) = [].
Proof.
  rewrite from_bytes_of_unfold. destruct (negb _); [reflexivity |].
  apply keypair_constructor_trace.
Qed.

Lemma keypair_lengths (cls : KeyPairClass) :
  class_length (public_key_class cls) + class_length (private_key_class cls)
  = keypair_bytes_length cls.
Proof. destruct cls; reflexivity. Qed.

(** [from_bytes] on [pub ++ priv] is the constructor on [pub] and [priv]. *)
Lemma from_bytes_of_app (cls : KeyPairClass) (pub priv : list byte) :
  List.length pub = class_length (public_key_class cls) ->
  List.length priv = class_length (private_key_class cls) ->
  from_bytes_of cls (pub ++ priv) = keypair_constructor cls pub priv.
Proof.
  intros Lp Ls. rewrite from_bytes_of_unfold.
  rewrite length_app, Lp, Ls, keypair_lengths, Nat.eqb_refl. cbn [negb].
  rewrite <- Lp.
  rewrite firstn_app, Nat.sub_diag, firstn_all, firstn_O, app_nil_r.
  rewrite skipn_app, Nat.sub_diag, skipn_all. reflexivity.
Qed.

Lemma to_bytes_object (cls : KeyPairClass) (pub priv : list byte) :
  KeyPair.to_bytes (keypair_object cls pub priv)
  = (scheme_to_bytes (keypair_scheme cls) ++ pub ++ priv)%list.
Proof. reflexivity. Qed.

Lemma to_bytes_cons (cls : KeyPairClass) (pub priv : list byte) :
  KeyPair.to_bytes (keypair_object cls pub priv)
  = match cls with
    | SuiKeyPairED25519_class => x00
    | SuiKeyPairSECP256K1_class => x01
    end :: (pub ++ priv)%list.
Proof. destruct cls; reflexivity. Qed.

Lemma skipn_1_to_bytes (cls : KeyPairClass) (pub priv : list byte) :
  skipn 1 (KeyPair.to_bytes (keypair_object cls pub priv))
  = (pub ++ priv)%list.
Proof. destruct cls; reflexivity. Qed.

End KeyPairs.

(** ** [from_bytes] and [to_bytes] *)

(** [to_bytes] is one byte longer than what [from_bytes] accepts, so
    [from_bytes] rejects it, for every key pair of either class. *)
Lemma from_bytes_rejects_to_bytes {X : Externals} (kp : KeyPair.t) :
  constructed kp ->
  from_bytes_of (KeyPair.__class__ kp) (KeyPair.to_bytes kp)
  = ([], Raise (SuiInvalidKeyPair (from_bytes_message (KeyPair.__class__ kp)))).
Proof.
  intros H. apply constructed_inv in H.
  destruct H as (cls & pub & priv & -> & _ & Lp & Ls).
  cbn [KeyPair.__class__ keypair_object].
  rewrite from_bytes_of_unfold, to_bytes_object, !length_app, Lp, Ls.
  destruct cls; reflexivity.
Qed.

(** The rejection does not depend on the value of the missing constant:
    whatever length [from_bytes] compares with, it raises on [to_bytes],
    because the private key slice is then one byte too long. *)
Lemma from_bytes_at_rejects_to_bytes {X : Externals} (kp : KeyPair.t)
    (keypair_bytes_len : nat) :
  constructed kp ->
  from_bytes_at (KeyPair.__class__ kp) (keypair_bytes_length (KeyPair.__class__ kp))
  = from_bytes_of (KeyPair.__class__ kp)
  /\ exists e,
       outcome (from_bytes_at (KeyPair.__class__ kp) keypair_bytes_len
                  (KeyPair.to_bytes kp)) = Raise e.
Proof.
  intros H. split; [destruct (KeyPair.__class__ kp); reflexivity |].
  apply constructed_inv in H.
  destruct H as (cls & pub & priv & -> & _ & Lp & Ls).
  cbn [KeyPair.__class__ keypair_object]. unfold from_bytes_at.
  destruct (negb _); [eexists; reflexivity |].
  assert (N : forall kp',
             outcome (keypair_constructor cls
                        (firstn (class_length (public_key_class cls))
                           (KeyPair.to_bytes (keypair_object cls pub priv)))
                        (skipn (class_length (public_key_class cls))
                           (KeyPair.to_bytes (keypair_object cls pub priv))))
             <> Ok kp').
  { intros kp' E. apply keypair_constructor_Ok in E.
    destruct E as (_ & _ & L & _).
    rewrite length_skipn, to_bytes_cons in L. cbn [List.length] in L.
    rewrite length_app, Lp, Ls in L.
    destruct cls; cbn in L; unfold_constants; lia. }
  destruct cls; cbn [keypair_constructor public_key_class class_length] in N;
    unfold_constants;
    match goal with
    | |- exists e, outcome ?m = Raise e =>
        destruct (outcome m) as [kp' | e] eqn:E;
          [exfalso; exact (N kp' eq_refl) | eexists; reflexivity]
    end.
Qed.

Lemma from_bytes_of_skipn_to_bytes {X : Externals} (kp : KeyPair.t) :
  constructed kp ->
  from_bytes_of (KeyPair.__class__ kp) (skipn 1 (KeyPair.to_bytes kp))
  = ([], Ok kp).
Proof.
  intros H. apply constructed_inv in H.
  destruct H as (cls & pub & priv & -> & H & Lp & Ls).
  cbn [KeyPair.__class__ keypair_object].
  rewrite skipn_1_to_bytes, from_bytes_of_app by assumption.
  rewrite (M_eta (keypair_constructor cls pub priv)),
    keypair_constructor_trace, H.
  reflexivity.
Qed.

(** C1, as the code has it.  For every key pair [kp] a constructor has
    returned, [to_bytes] is the scheme's tag byte followed by the public
    and the private key bytes, and the [from_bytes] of [kp]'s class,
    applied to [to_bytes] without that leading tag byte, returns a key pair
    equal to [kp] (same class and scheme, same public and private key
    bytes). *)
Theorem from_bytes_inverts_to_bytes_without_tag
    {X : Externals} (kp : KeyPair.t) :
  constructed kp ->
  KeyPair.to_bytes kp
  = (scheme_to_bytes (KeyPair.scheme kp)
       ++ Key.key_bytes (KeyPair.public_key kp)
       ++ Key.key_bytes (KeyPair.private_key kp))%list
  /\ List.length (scheme_to_bytes (KeyPair.scheme kp)) = 1
  /\ from_bytes_of (KeyPair.__class__ kp) (skipn 1 (KeyPair.to_bytes kp))
     = ([], Ok kp).
Proof.
  intros H.
  split; [reflexivity |].
  split; [destruct (KeyPair.scheme kp); reflexivity |].
  apply from_bytes_of_skipn_to_bytes. exact H.
Qed.

(** ** [from_b64], [keypair_from_keystring] and [to_b64] *)

Section Base64.

Context {X : Externals}.

Lemma call_b64decode_inr (s : string) (b : list byte) :
  b64decode s = inr b -> call_b64decode s = ([Call_b64decode s], Ok b).
Proof. intros H. unfold call_b64decode. rewrite H. reflexivity. Qed.

Lemma call_b64decode_inl (s name : string) :
  b64decode s = inl name ->
  call_b64decode s = ([Call_b64decode s], Raise (ExternalError name)).
Proof. intros H. unfold call_b64decode. rewrite H. reflexivity. Qed.

(** The dispatch of [keypair_from_keystring] on a decoded, non-empty
    byte sequence. *)
Lemma keypair_from_keystring_decoded (s : string) (tag : byte)
    (payload : list byte) :
  String.length s = SUI_KEYPAIR_LEN ->
  b64decode s = inr (tag :: payload) ->
  keypair_from_keystring s =
  ([Call_b64decode s],
   if (byte_val tag =? 0)%Z then
     outcome (from_bytes_of SuiKeyPairED25519_class payload)
   else if (byte_val tag =? 1)%Z then
     outcome (from_bytes_of SuiKeyPairSECP256K1_class payload)
   else Raise NotImplementedError).
Proof.
  intros L D. unfold keypair_from_keystring.
  rewrite L, Nat.eqb_refl. cbn [negb].
  rewrite (call_b64decode_inr _ _ D), bind_Ok.
  cbn [index0]. rewrite bind_ret_l. cbn [skipn scheme_value].
  destruct (byte_val tag =? 0)%Z.
  - change SuiKeyPairED25519.from_bytes
      with (from_bytes_of SuiKeyPairED25519_class).
    rewrite from_bytes_of_trace. reflexivity.
  - destruct (byte_val tag =? 1)%Z.
    + change SuiKeyPairSECP256K1.from_bytes
        with (from_bytes_of SuiKeyPairSECP256K1_class).
      rewrite from_bytes_of_trace. reflexivity.
    + reflexivity.
Qed.

(** The dispatch of the two [from_b64] methods, which both hand the
    payload to the ED25519 [from_bytes]. *)
Lemma from_b64_of_decoded (cls : KeyPairClass) (s : string) (tag : byte)
    (payload : list byte) :
  String.length s = SUI_KEYPAIR_LEN ->
  b64decode s = inr (tag :: payload) ->
  from_b64_of cls s =
  ([Call_b64decode s],
   if (byte_val tag =? scheme_value (keypair_scheme cls))%Z then
     outcome (from_bytes_of SuiKeyPairED25519_class payload)
   else
     Raise (SuiInvalidKeyPair
              match cls with
              | SuiKeyPairED25519_class => "Scheme not ED25519"
              | SuiKeyPairSECP256K1_class => "Scheme not SECP256K1"
              end)).
Proof.
  intros L D.
  destruct cls; cbn [from_b64_of keypair_scheme];
    [unfold SuiKeyPairED25519.from_b64 | unfold SuiKeyPairSECP256K1.from_b64];
    rewrite L, Nat.eqb_refl; cbn [negb];
    rewrite (call_b64decode_inr _ _ D), bind_Ok;
    cbn [index0]; rewrite bind_ret_l; cbn [skipn];
    change SuiKeyPairED25519.from_bytes
      with (from_bytes_of SuiKeyPairED25519_class);
    destruct (byte_val tag =? _)%Z;
    try rewrite from_bytes_of_trace; reflexivity.
Qed.

End Base64.

Section RoundTripBase64.

Context {X : Externals}.

(** The Edwards-curve class reads back its own encoding. *)
Lemma ed25519_from_b64_to_b64 (kp : KeyPair.t) :
  constructed kp ->
  KeyPair.__class__ kp = SuiKeyPairED25519_class ->
  codec_faithful_on kp ->
  SuiKeyPairED25519.from_b64 (KeyPair.to_b64 kp)
  = ([Call_b64decode (KeyPair.to_b64 kp)], Ok kp).
Proof.
  intros H C (L & D). apply constructed_inv in H.
  destruct H as (cls & pub & priv & -> & H & Lp & Ls).
  cbn in C. subst cls. rewrite to_bytes_cons in D.
  change SuiKeyPairED25519.from_b64 with (from_b64_of SuiKeyPairED25519_class).
  rewrite (from_b64_of_decoded _ _ _ _ L D). cbn [keypair_scheme].
  change (byte_val x00 =? scheme_value ED25519)%Z with true. cbv iota.
  rewrite from_bytes_of_app, H by assumption. reflexivity.
Qed.

(** [keypair_from_keystring] reads back the encoding of a key pair of
    either class: it hands the payload of a SECP256K1 string to
    [SuiKeyPairSECP256K1.from_bytes]. *)
Lemma keypair_from_keystring_to_b64 (kp : KeyPair.t) :
  constructed kp ->
  codec_faithful_on kp ->
  keypair_from_keystring (KeyPair.to_b64 kp)
  = ([Call_b64decode (KeyPair.to_b64 kp)], Ok kp).
Proof.
  intros H (L & D). apply constructed_inv in H.
  destruct H as (cls & pub & priv & -> & H & Lp & Ls).
  rewrite to_bytes_cons in D.
  rewrite (keypair_from_keystring_decoded _ _ _ L D).
  destruct cls.
  - change (byte_val x00 =? 0)%Z with true. cbv iota.
    rewrite from_bytes_of_app, H by assumption. reflexivity.
  - change (byte_val x01 =? 0)%Z with false.
    change (byte_val x01 =? 1)%Z with true. cbv iota.
    rewrite from_bytes_of_app, H by assumption. reflexivity.
Qed.

End RoundTripBase64.

(** C2, at the secp256k1 class.  For every secp256k1 key pair [kp] a
    constructor has returned, and a base64 codec that is faithful on its
    serialisation, [SuiKeyPairSECP256K1.from_b64 (kp.to_b64())] does not
    return [kp]: it decodes the text, finds the tag 1, hands the 65-byte
    payload to the ED25519 [from_bytes] and raises that method's length
    error. *)
Theorem secp256k1_from_b64_rejects_own_encoding
    {X : Externals} (kp : KeyPair.t) :
  constructed kp ->
  KeyPair.__class__ kp = SuiKeyPairSECP256K1_class ->
  codec_faithful_on kp ->
  from_b64_of (KeyPair.__class__ kp) (KeyPair.to_b64 kp)
  = ([Call_b64decode (KeyPair.to_b64 kp)],
     Raise (SuiInvalidKeyPair "Expect bytes len of 64")).
Proof.
  intros H C (L & D). apply constructed_inv in H.
  destruct H as (cls & pub & priv & -> & H & Lp & Ls).
  cbn in C. subst cls. rewrite to_bytes_cons in D.
  cbn [KeyPair.__class__ keypair_object].
  rewrite (from_b64_of_decoded _ _ _ _ L D). cbn [keypair_scheme].
  change (byte_val x01 =? scheme_value SECP256K1)%Z with true. cbv iota.
  rewrite from_bytes_of_unfold, length_app, Lp, Ls. reflexivity.
Qed.

(** ** Tag dispatch of [keypair_from_keystring] *)

Lemma from_bytes_of_Ok {X : Externals} (cls : KeyPairClass)
    (indata : list byte) (kp : KeyPair.t) :
  outcome (from_bytes_of cls indata) = Ok kp ->
  List.length indata = keypair_bytes_length cls
  /\ KeyPair.__class__ kp = cls
  /\ KeyPair.scheme kp = keypair_scheme cls
  /\ indata = skipn 1 (KeyPair.to_bytes kp)
  /\ constructed kp.
Proof.
  rewrite from_bytes_of_unfold.
  destruct (Nat.eqb_spec (List.length indata) (keypair_bytes_length cls))
    as [L | L]; cbn [negb]; [| discriminate].
  intros H. pose proof H as H'. apply keypair_constructor_Ok in H'.
  destruct H' as (_ & _ & _ & _ & ->).
  repeat split; try assumption; try reflexivity.
  - rewrite skipn_1_to_bytes, firstn_skipn. reflexivity.
  - apply constructed_iff. eauto.
Qed.

(** C3, as the code has it.  Let [s] have the key-string length and decode
    to [tag :: payload].  If [tag] is 0 the result is that of the ED25519
    [from_bytes] on [payload]: every key pair returned is of the ED25519
    class, and the key pair is returned whenever [payload] is the public
    followed by the private bytes of an ED25519 key pair.  If [tag] is 1
    the same holds with the SECP256K1 class.  For every other tag the
    function raises [NotImplementedError]. *)
Theorem keypair_from_keystring_dispatch
    {X : Externals} (s : string) (tag : byte) (payload : list byte) :
  String.length s = SUI_KEYPAIR_LEN ->
  b64decode s = inr (tag :: payload) ->
  (forall cls : KeyPairClass,
      byte_val tag = scheme_value (keypair_scheme cls) ->
      outcome (keypair_from_keystring s) = outcome (from_bytes_of cls payload)
      /\ (forall kp, outcome (keypair_from_keystring s) = Ok kp ->
                     KeyPair.__class__ kp = cls
                     /\ KeyPair.scheme kp = keypair_scheme cls)
      /\ (forall kp, constructed kp ->
                     KeyPair.__class__ kp = cls ->
                     payload = skipn 1 (KeyPair.to_bytes kp) ->
                     outcome (keypair_from_keystring s) = Ok kp))
  /\ (byte_val tag <> 0%Z -> byte_val tag <> 1%Z ->
      outcome (keypair_from_keystring s) = Raise NotImplementedError).
Proof.
  intros L D.
  pose proof (f_equal outcome (keypair_from_keystring_decoded _ _ _ L D)) as K.
  rewrite outcome_pair in K. rewrite K. clear K.
  split.
  - intros cls T.
    assert (E : (if (byte_val tag =? 0)%Z
                 then outcome (from_bytes_of SuiKeyPairED25519_class payload)
                 else if (byte_val tag =? 1)%Z
                      then outcome
                             (from_bytes_of SuiKeyPairSECP256K1_class payload)
                      else Raise NotImplementedError)
                = outcome (from_bytes_of cls payload)).
    { destruct cls; cbn in T; rewrite T; reflexivity. }
    rewrite E. split; [reflexivity |]. split.
    + intros kp H. apply from_bytes_of_Ok in H. tauto.
    + intros kp H C P. subst payload.
      pose proof (from_bytes_of_skipn_to_bytes kp H) as R.
      rewrite C in R. rewrite R. reflexivity.
  - intros T0 T1.
    destruct (Z.eqb_spec (byte_val tag) 0); [contradiction |].
    destruct (Z.eqb_spec (byte_val tag) 1); [contradiction |].
    reflexivity.
Qed.

(** ** Address derivation *)

Lemma hexlify_length (b : list byte) :
  List.length (hexlify b) = 2 * List.length b.
Proof. induction b as [| x r IH]; cbn [hexlify List.length]; lia. Qed.

Lemma hex_digit_is_hex (n : N) :
  is_hex_char (ascii_of_byte (hex_digit n)) = true.
Proof.
  unfold hex_digit. generalize (N.to_nat n) as k. intros k.
  do 16 (destruct k as [| k]; [reflexivity |]).
  destruct k; reflexivity.
Qed.

Lemma hexlify_is_hex (b : list byte) :
  Forall (fun c => is_hex_char (ascii_of_byte c) = true) (hexlify b).
Proof.
  induction b as [| x r IH]; cbn [hexlify]; [constructor |].
  constructor; [apply hex_digit_is_hex |].
  constructor; [apply hex_digit_is_hex | exact IH].
Qed.

Lemma decode_utf8_length (b : list byte) :
  String.length (decode_utf8 b) = List.length b.
Proof.
  unfold decode_utf8, string_of_list_byte.
  induction b as [| x r IH]; cbn; [reflexivity | now rewrite IH].
Qed.

Lemma decode_utf8_all_chars (p : ascii -> bool) (b : list byte) :
  Forall (fun c => p (ascii_of_byte c) = true) b ->
  all_chars p (decode_utf8 b) = true.
Proof.
  unfold decode_utf8, string_of_list_byte.
  induction 1 as [| x r Hx _ IH]; cbn; [reflexivity |].
  now rewrite Hx, IH.
Qed.

Lemma Forall_firstn {A : Type} (P : A -> Prop) (n : nat) (l : list A) :
  Forall P l -> Forall P (firstn n l).
Proof.
  intros H. revert n. induction H as [| x r Hx _ IH]; intros [| n]; cbn;
    constructor; auto.
Qed.

Section Addresses.

Context {X : Externals}.

Lemma hex40_is_hex (window : list byte) :
  all_chars is_hex_char (hex40 window) = true.
Proof.
  apply decode_utf8_all_chars, Forall_firstn, hexlify_is_hex.
Qed.

Lemma hex40_length (window : list byte) :
  digest_size_law -> String.length (hex40 window) = 40.
Proof.
  intros Hlaw. unfold hex40.
  rewrite decode_utf8_length, length_firstn, hexlify_length, Hlaw.
  reflexivity.
Qed.

(** The constructor prefixes a 40-character identifier with "0x". *)
Lemma SuiAddress_init_40 (identifier : string) :
  String.length identifier = SUI_ADDRESS_STRING_LEN ->
  SuiAddress.__init__ identifier
  = {| SuiAddress.identifier := "0x" ++ identifier;
       SuiAddress.address := "0x" ++ identifier |}.
Proof.
  intros H. unfold SuiAddress.__init__. rewrite H, Nat.eqb_refl. reflexivity.
Qed.

(** [from_bytes] makes one hash call, on the digest window, and builds the
    address from the first 40 hexadecimal characters of the digest. *)
Lemma SuiAddress_from_bytes_cons (first : byte) (rest : list byte) :
  SuiAddress.from_bytes (first :: rest)
  = ([Call_sha3_256 (digest_window (first :: rest))],
     Ok (SuiAddress.__init__ (hex40 (digest_window (first :: rest))))).
Proof.
  unfold SuiAddress.from_bytes. cbn [index0]. rewrite bind_ret_l.
  cbv zeta. unfold call_sha3_256. rewrite bind_Ok.
  reflexivity.
Qed.

Lemma SuiAddress_from_bytes_nil :
  SuiAddress.from_bytes [] = ([], Raise IndexError).
Proof. reflexivity. Qed.

Lemma digest_window_length (in_bytes : list byte) :
  34 <= List.length in_bytes ->
  List.length (digest_window in_bytes)
  = if (byte_val (hd x00 in_bytes) =? 0)%Z then 33 else 34.
Proof.
  intros H. destruct in_bytes as [| first rest]; [cbn in H; lia |].
  cbn [digest_window hd].
  destruct (byte_val first =? 0)%Z; rewrite length_firstn; lia.
Qed.

(** The digest window of a serialised key pair is its tag byte and its
    public key bytes. *)
Lemma digest_window_to_bytes (cls : KeyPairClass) (pub priv : list byte) :
  List.length pub = class_length (public_key_class cls) ->
  digest_window (KeyPair.to_bytes (keypair_object cls pub priv))
  = (scheme_to_bytes (keypair_scheme cls) ++ pub)%list.
Proof.
  intros Lp. rewrite to_bytes_cons. destruct cls; cbn in Lp;
    unfold_constants; cbn [digest_window keypair_scheme scheme_to_bytes app].
  - change (byte_val x00 =? 0)%Z with true. cbv iota.
    change 33 with (S 32). rewrite firstn_cons, <- Lp.
    rewrite firstn_app, Nat.sub_diag, firstn_all, firstn_O, app_nil_r.
    reflexivity.
  - change (byte_val x01 =? 0)%Z with false. cbv iota.
    change 34 with (S 33). rewrite firstn_cons, <- Lp.
    rewrite firstn_app, Nat.sub_diag, firstn_all, firstn_O, app_nil_r.
    reflexivity.
Qed.

Lemma SuiAddress_from_bytes_to_bytes (kp : KeyPair.t) :
  constructed kp ->
  SuiAddress.from_bytes (KeyPair.to_bytes kp)
  = let window := (scheme_to_bytes (KeyPair.scheme kp)
                     ++ Key.key_bytes (KeyPair.public_key kp))%list in
    ([Call_sha3_256 window], Ok (SuiAddress.__init__ (hex40 window))).
Proof.
  intros H. apply constructed_inv in H.
  destruct H as (cls & pub & priv & -> & _ & Lp & _).
  pose proof (digest_window_to_bytes cls pub priv Lp) as W.
  rewrite to_bytes_cons in *. rewrite SuiAddress_from_bytes_cons, W.
  reflexivity.
Qed.

End Addresses.

(** C4, as the code has it.  On at least 34 bytes, and with a hash whose
    digests are 32 bytes long, [SuiAddress.from_bytes] makes exactly one
    hash call: on bytes [0:33], exactly 33 of them, when the first byte is
    0, and on bytes [0:34], exactly 34 of them, otherwise.  The address it
    returns is "0x" followed by the first 40 hexadecimal characters of that
    digest. *)
Theorem address_hashes_digest_window
    {X : Externals} (in_bytes : list byte) :
  34 <= List.length in_bytes ->
  digest_size_law ->
  let window :=
    if (byte_val (hd x00 in_bytes) =? 0)%Z then firstn 33 in_bytes
    else firstn 34 in_bytes in
  List.length window = (if (byte_val (hd x00 in_bytes) =? 0)%Z then 33 else 34)
  /\ trace (SuiAddress.from_bytes in_bytes) = [Call_sha3_256 window]
  /\ exists addr,
       outcome (SuiAddress.from_bytes in_bytes) = Ok addr
       /\ SuiAddress.address addr
          = "0x" ++ decode_utf8 (firstn 40 (hexlify (sha3_256 window)))
       /\ SuiAddress.identifier addr = SuiAddress.address addr.
Proof.
  intros L Hlaw window.
  pose proof (digest_window_length in_bytes L) as W.
  destruct in_bytes as [| first rest]; [cbn in L; lia |].
  change window with (digest_window (first :: rest)).
  split; [exact W |].
  rewrite SuiAddress_from_bytes_cons, trace_pair, outcome_pair.
  split; [reflexivity |].
  eexists. split; [reflexivity |].
  rewrite SuiAddress_init_40 by (apply hex40_length; exact Hlaw).
  split; reflexivity.
Qed.

(** C5, as the code has it.  On at least 34 bytes, and with a hash whose
    digests are 32 bytes long, the address string [SuiAddress.from_bytes]
    returns is 42 characters long: the prefix "0x" followed by exactly 40
    lowercase hexadecimal characters. *)
Theorem address_is_0x_and_40_hex_characters
    {X : Externals} (in_bytes : list byte) :
  34 <= List.length in_bytes ->
  digest_size_law ->
  exists addr h,
    outcome (SuiAddress.from_bytes in_bytes) = Ok addr
    /\ SuiAddress.address addr = "0x" ++ h
    /\ String.length h = 40
    /\ all_chars is_hex_char h = true
    /\ String.length (SuiAddress.address addr) = 42.
Proof.
  intros L Hlaw.
  destruct in_bytes as [| first rest]; [cbn in L; lia |].
  rewrite SuiAddress_from_bytes_cons, outcome_pair.
  pose proof (hex40_length (digest_window (first :: rest)) Hlaw) as H40.
  rewrite SuiAddress_init_40 by exact H40.
  eexists. exists (hex40 (digest_window (first :: rest))).
  split; [reflexivity |]. cbn [SuiAddress.address].
  split; [reflexivity |].
  split; [exact H40 |].
  split; [apply hex40_is_hex |].
  cbn [append String.length]. rewrite H40. reflexivity.
Qed.


(** [create_new_address] pairs the key pair with that address. *)
Lemma create_new_address_of_spec {X : Externals} (new_kp : KeyPair.t) :
  constructed new_kp ->
  let window := (scheme_to_bytes (KeyPair.scheme new_kp)
                   ++ Key.key_bytes (KeyPair.public_key new_kp))%list in
  create_new_address_of new_kp
  = ([Call_sha3_256 window],
     Ok (new_kp, SuiAddress.__init__ (hex40 window))).
Proof.
  intros H window. unfold create_new_address_of.
  rewrite SuiAddress_from_bytes_to_bytes by assumption.
  cbv zeta. rewrite bind_Ok. reflexivity.
Qed.

(** ** [address_from_keystring] *)

Section AddressFromKeystring.

Context {X : Externals}.

(** [keypair_from_keystring] calls the decoder at most once and never
    the hash. *)
Lemma keypair_from_keystring_trace (s : string) :
  trace (keypair_from_keystring s) = []
  \/ trace (keypair_from_keystring s) = [Call_b64decode s].
Proof.
  unfold keypair_from_keystring.
  destruct (negb _); [left; reflexivity | right].
  unfold call_b64decode.
  destruct (b64decode s) as [name | [| tag payload]]; try reflexivity.
  rewrite bind_Ok.
  cbn [index0]. rewrite bind_ret_l. cbn [skipn trace fst].
  change SuiKeyPairED25519.from_bytes
    with (from_bytes_of SuiKeyPairED25519_class).
  change SuiKeyPairSECP256K1.from_bytes
    with (from_bytes_of SuiKeyPairSECP256K1_class).
  repeat match goal with
         | |- context [if ?c then _ else _] => destruct c
         end;
    try rewrite from_bytes_of_trace; reflexivity.
Qed.

(** When [keypair_from_keystring] returns, the string has decoded to a
    non-empty byte sequence. *)
Lemma keypair_from_keystring_Ok (s : string) (kp : KeyPair.t) :
  outcome (keypair_from_keystring s) = Ok kp ->
  String.length s = SUI_KEYPAIR_LEN
  /\ trace (keypair_from_keystring s) = [Call_b64decode s]
  /\ exists tag payload, b64decode s = inr (tag :: payload).
Proof.
  intros H.
  destruct (Nat.eqb_spec (String.length s) SUI_KEYPAIR_LEN) as [L | L].
  - split; [exact L |].
    destruct (b64decode s) as [name | [| tag payload]] eqn:D.
    + unfold keypair_from_keystring in H.
      rewrite L, Nat.eqb_refl, (call_b64decode_inl _ _ D) in H.
      discriminate H.
    + unfold keypair_from_keystring in H.
      rewrite L, Nat.eqb_refl, (call_b64decode_inr _ _ D) in H.
      discriminate H.
    + rewrite (keypair_from_keystring_decoded _ _ _ L D). eauto.
  - apply (keypair_from_keystring_wrong_length s) in L.
    rewrite L in H. discriminate H.
Qed.

End AddressFromKeystring.

(** * The properties on the reference instance *)

(** ** The reference libraries behave as the real ones on known values *)

Example reference_sha3_256_empty :
  decode_utf8 (hexlify (Reference.hashlib_sha3_256 []))
  = "a7ffc6f8bf1ed76651c14756a061d662f580ff4de43b49fa82d80a4b80f8434a".
Proof. vm_compute. reflexivity. Qed.

Example reference_b64decode_skips_and_pads :
  Reference.base64_b64decode "QUJD RA==" = inr [x41; x42; x43; x44]
  /\ Reference.base64_b64decode "QUJDRA" = inl "binascii.Error".
Proof. split; vm_compute; reflexivity. Qed.

Example reference_secp256k1_points :
  Reference.ec_pubkey_parse Sample.secp256k1_public = true
  /\ Reference.ec_pubkey_parse (x02 :: repeat x00 31 ++ [x05])%list = false.
Proof. split; vm_compute; reflexivity. Qed.

Lemma reference_digest_size : @digest_size_law reference.
Proof.
  intros data. change (List.length (Reference.hashlib_sha3_256 data) = 32).
  unfold Reference.hashlib_sha3_256. cbv zeta.
  rewrite length_map, length_seq. reflexivity.
Qed.

(** ** The reference base64 codec reads back what it writes *)

Module ReferenceCodec.

Import Reference.
Local Open Scope N_scope.

Lemma byte_of_N_to_N (b : byte) : byte_of_N (Byte.to_N b) = b.
Proof. destruct b; reflexivity. Qed.

Lemma forall_byte (P : byte -> bool) :
  forallb (fun n => P (byte_of_N (N.of_nat n))) (seq 0 256) = true ->
  forall b, P b = true.
Proof.
  intros H b. rewrite forallb_forall in H.
  specialize (H (N.to_nat (Byte.to_N b))).
  rewrite N2Nat.id, byte_of_N_to_N in H.
  apply H, in_seq. pose proof (Byte.to_N_bounded b). lia.
Qed.

Lemma forall_N_below (k : nat) (P : N -> bool) :
  forallb (fun n => P (N.of_nat n)) (seq 0 k) = true ->
  forall x, x < N.of_nat k -> P x = true.
Proof.
  intros H x Hx. rewrite forallb_forall in H.
  specialize (H (N.to_nat x)). rewrite N2Nat.id in H.
  apply H, in_seq. lia.
Qed.

Lemma list_ind3 {A : Type} (P : list A -> Prop) :
  P [] ->
  (forall a, P [a]) ->
  (forall a b, P [a; b]) ->
  (forall a b c r, P r -> P (a :: b :: c :: r)) ->
  forall l, P l.
Proof.
  intros H0 H1 H2 H3. fix IH 1.
  intros [| a [| b [| c r]]];
    [exact H0 | apply H1 | apply H2 | apply H3; apply IH].
Qed.

(** How one byte splits into the pieces the encoder uses. *)
Lemma byte_pieces (x : byte) :
  let n := Byte.to_N x in
  (N.shiftr n 2 <? 64) && (N.land n 3 <? 4)
  && (N.shiftr n 4 <? 16) && (N.land n 15 <? 16)
  && (N.shiftr n 6 <? 4) && (N.land n 63 <? 64)
  && Byte.eqb (byte_of_N (N.lor (N.shiftl (N.shiftr n 2) 2) (N.land n 3))) x
  && Byte.eqb (byte_of_N (N.lor (N.shiftl (N.shiftr n 4) 4) (N.land n 15))) x
  && Byte.eqb (byte_of_N (N.lor (N.shiftl (N.shiftr n 6) 6) (N.land n 63))) x
  = true.
Proof. revert x. apply forall_byte. vm_compute. reflexivity. Qed.

(** A sextet assembled from a high part [u] shifted by [k] and a low part
    [h] gives both parts back. *)
Lemma sextet_4 (u h : N) :
  u < 4 -> h < 16 ->
  let s := N.lor (N.shiftl u 4) h in
  s < 64 /\ N.shiftr s 4 = u /\ N.land s 15 = h.
Proof.
  intros Hu Hh.
  assert (E : ((N.lor (N.shiftl u 4) h <? 64)
               && (N.shiftr (N.lor (N.shiftl u 4) h) 4 =? u)
               && (N.land (N.lor (N.shiftl u 4) h) 15 =? h)) = true).
  { revert h Hh. apply (forall_N_below 16).
    revert u Hu.
    apply (forall_N_below 4
             (fun u => forallb
                         (fun n =>
                            (N.lor (N.shiftl u 4) (N.of_nat n) <? 64)
                            && (N.shiftr (N.lor (N.shiftl u 4) (N.of_nat n)) 4
                                =? u)
                            && (N.land (N.lor (N.shiftl u 4) (N.of_nat n)) 15
                                =? N.of_nat n))
                         (seq 0 16))).
    vm_compute. reflexivity. }
  apply andb_prop in E. destruct E as (E & E3).
  apply andb_prop in E. destruct E as (E1 & E2).
  apply N.ltb_lt in E1. apply N.eqb_eq in E2, E3. auto.
Qed.

Lemma sextet_2 (u h : N) :
  u < 16 -> h < 4 ->
  let s := N.lor (N.shiftl u 2) h in
  s < 64 /\ N.shiftr s 2 = u /\ N.land s 3 = h.
Proof.
  intros Hu Hh.
  assert (E : ((N.lor (N.shiftl u 2) h <? 64)
               && (N.shiftr (N.lor (N.shiftl u 2) h) 2 =? u)
               && (N.land (N.lor (N.shiftl u 2) h) 3 =? h)) = true).
  { revert h Hh. apply (forall_N_below 4).
    revert u Hu.
    apply (forall_N_below 16
             (fun u => forallb
                         (fun n =>
                            (N.lor (N.shiftl u 2) (N.of_nat n) <? 64)
                            && (N.shiftr (N.lor (N.shiftl u 2) (N.of_nat n)) 2
                                =? u)
                            && (N.land (N.lor (N.shiftl u 2) (N.of_nat n)) 3
                                =? N.of_nat n))
                         (seq 0 4))).
    vm_compute. reflexivity. }
  apply andb_prop in E. destruct E as (E & E3).
  apply andb_prop in E. destruct E as (E1 & E2).
  apply N.ltb_lt in E1. apply N.eqb_eq in E2, E3. auto.
Qed.

(** The character of a sextet is ASCII, is not the pad, and stands for
    that sextet. *)
Lemma table_a2b_b2a (s : N) :
  s < 64 ->
  (N_of_ascii (b2a_char s) =? BASE64_PAD) = false
  /\ table_a2b_base64 (N_of_ascii (b2a_char s)) = Some s
  /\ (N_of_ascii (b2a_char s) <? 128) = true.
Proof.
  intros Hs.
  assert (E : (negb (N_of_ascii (b2a_char s) =? BASE64_PAD)
               && match table_a2b_base64 (N_of_ascii (b2a_char s)) with
                  | Some v => v =? s
                  | None => false
                  end
               && (N_of_ascii (b2a_char s) <? 128)) = true).
  { revert s Hs. apply (forall_N_below 64). vm_compute. reflexivity. }
  apply andb_prop in E. destruct E as (E & E3).
  apply andb_prop in E. destruct E as (E1 & E2).
  apply negb_true_iff in E1.
  destruct (table_a2b_base64 (N_of_ascii (b2a_char s))) as [v |];
    [| discriminate].
  apply N.eqb_eq in E2. subst v. auto.
Qed.

Lemma byte_pieces_spec (x : byte) :
  let n := Byte.to_N x in
  N.shiftr n 2 < 64 /\ N.land n 3 < 4
  /\ N.shiftr n 4 < 16 /\ N.land n 15 < 16
  /\ N.shiftr n 6 < 4 /\ N.land n 63 < 64
  /\ byte_of_N (N.lor (N.shiftl (N.shiftr n 2) 2) (N.land n 3)) = x
  /\ byte_of_N (N.lor (N.shiftl (N.shiftr n 4) 4) (N.land n 15)) = x
  /\ byte_of_N (N.lor (N.shiftl (N.shiftr n 6) 6) (N.land n 63)) = x.
Proof.
  pose proof (byte_pieces x) as E. cbv zeta in *.
  repeat match type of E with
         | (_ && _)%bool = true =>
             let E' := fresh "E" in
             apply andb_prop in E; destruct E as (E & E')
         end.
  repeat match goal with
         | H : (_ <? _) = true |- _ => apply N.ltb_lt in H
         | H : Byte.eqb _ _ = true |- _ => apply Byte.byte_dec_bl in H
         end.
  auto 10.
Qed.

Lemma char_codes_String (c : ascii) (r : string) :
  char_codes (String c r) = N_of_ascii c :: char_codes r.
Proof. reflexivity. Qed.

(** One step of the decoder on the character of a sextet. *)
Lemma a2b_loop_char (s : N) (rest : list N) (quad_pos : nat) (leftchar : N)
    (pads : nat) (bin_data : list byte) :
  s < 64 ->
  a2b_loop (N_of_ascii (b2a_char s) :: rest) quad_pos leftchar pads bin_data
  = match quad_pos with
    | 0%nat => a2b_loop rest 1%nat s 0%nat bin_data
    | 1%nat =>
        a2b_loop rest 2%nat (N.land s 15) 0%nat
          (byte_of_N (N.lor (N.shiftl leftchar 2) (N.shiftr s 4)) :: bin_data)
    | 2%nat =>
        a2b_loop rest 3%nat (N.land s 3) 0%nat
          (byte_of_N (N.lor (N.shiftl leftchar 4) (N.shiftr s 2)) :: bin_data)
    | _ =>
        a2b_loop rest 0%nat 0 0%nat
          (byte_of_N (N.lor (N.shiftl leftchar 6) s) :: bin_data)
    end.
Proof.
  intros Hs. destruct (table_a2b_b2a s Hs) as (E1 & E2 & _).
  cbn [a2b_loop]. rewrite E1, E2. reflexivity.
Qed.

(** The decoder on the encoding of [data], from the start of a quad. *)
Lemma a2b_loop_b2a (data : list byte) :
  forall bin_data,
    a2b_loop (char_codes (b2a_base64 data)) 0%nat 0 0%nat bin_data
    = inr (rev bin_data ++ data)%list.
Proof.
  induction data as [| a | a b | a b c r IH] using list_ind3; intros acc.
  - cbn. rewrite app_nil_r. reflexivity.
  - destruct (byte_pieces_spec a) as (A2 & A3 & _ & _ & _ & _ & Ea & _).
    destruct (sextet_4 _ 0 A3 eq_refl) as (S1 & S1h & _).
    cbv zeta in *. rewrite N.lor_0_r in S1, S1h.
    cbn [b2a_base64]. rewrite !char_codes_String.
    rewrite a2b_loop_char by exact A2.
    rewrite a2b_loop_char by exact S1.
    rewrite S1h, Ea. reflexivity.
  - destruct (byte_pieces_spec a) as (A2 & A3 & _ & _ & _ & _ & Ea & _).
    destruct (byte_pieces_spec b) as (_ & _ & B4 & B15 & _ & _ & _ & Eb & _).
    destruct (sextet_4 _ _ A3 B4) as (S1 & S1h & S1l).
    destruct (sextet_2 _ 0 B15 eq_refl) as (S2 & S2h & _).
    cbv zeta in *. rewrite N.lor_0_r in S2, S2h.
    cbn [b2a_base64]. rewrite !char_codes_String.
    rewrite a2b_loop_char by exact A2.
    rewrite a2b_loop_char by exact S1.
    rewrite a2b_loop_char by exact S2.
    rewrite S1h, S1l, S2h, Ea, Eb.
    change (inr (rev (b :: a :: acc)) = inr (rev acc ++ [a; b])%list :> string + list byte).
    cbn [rev]. rewrite <- app_assoc. reflexivity.
  - destruct (byte_pieces_spec a) as (A2 & A3 & _ & _ & _ & _ & Ea & _).
    destruct (byte_pieces_spec b) as (_ & _ & B4 & B15 & _ & _ & _ & Eb & _).
    destruct (byte_pieces_spec c) as (_ & _ & _ & _ & C6 & C63 & _ & _ & Ec).
    destruct (sextet_4 _ _ A3 B4) as (S1 & S1h & S1l).
    destruct (sextet_2 _ _ B15 C6) as (S2 & S2h & S2l).
    cbv zeta in *.
    cbn [b2a_base64]. rewrite !char_codes_String.
    rewrite a2b_loop_char by exact A2.
    rewrite a2b_loop_char by exact S1.
    rewrite a2b_loop_char by exact S2.
    rewrite a2b_loop_char by exact C63.
    rewrite S1h, S1l, S2h, S2l, Ea, Eb, Ec, IH.
    cbn [rev]. rewrite <- !app_assoc. reflexivity.
Qed.

Lemma b2a_base64_ascii (data : list byte) :
  forallb (fun c => c <? 128) (char_codes (b2a_base64 data)) = true.
Proof.
  induction data as [| a | a b | a b c r IH] using list_ind3.
  - reflexivity.
  - destruct (byte_pieces_spec a) as (A2 & A3 & _).
    destruct (sextet_4 _ 0 A3 eq_refl) as (S1 & _).
    cbv zeta in *. rewrite N.lor_0_r in S1.
    cbn [b2a_base64]. rewrite !char_codes_String. cbn [forallb].
    rewrite (proj2 (proj2 (table_a2b_b2a _ A2))),
      (proj2 (proj2 (table_a2b_b2a _ S1))).
    reflexivity.
  - destruct (byte_pieces_spec a) as (A2 & A3 & _).
    destruct (byte_pieces_spec b) as (_ & _ & B4 & B15 & _).
    destruct (sextet_4 _ _ A3 B4) as (S1 & _).
    destruct (sextet_2 _ 0 B15 eq_refl) as (S2 & _).
    cbv zeta in *. rewrite N.lor_0_r in S2.
    cbn [b2a_base64]. rewrite !char_codes_String. cbn [forallb].
    rewrite (proj2 (proj2 (table_a2b_b2a _ A2))),
      (proj2 (proj2 (table_a2b_b2a _ S1))),
      (proj2 (proj2 (table_a2b_b2a _ S2))).
    reflexivity.
  - destruct (byte_pieces_spec a) as (A2 & A3 & _).
    destruct (byte_pieces_spec b) as (_ & _ & B4 & B15 & _).
    destruct (byte_pieces_spec c) as (_ & _ & _ & _ & C6 & C63 & _).
    destruct (sextet_4 _ _ A3 B4) as (S1 & _).
    destruct (sextet_2 _ _ B15 C6) as (S2 & _).
    cbv zeta in *.
    cbn [b2a_base64]. rewrite !char_codes_String. cbn [forallb].
    rewrite (proj2 (proj2 (table_a2b_b2a _ A2))),
      (proj2 (proj2 (table_a2b_b2a _ S1))),
      (proj2 (proj2 (table_a2b_b2a _ S2))),
      (proj2 (proj2 (table_a2b_b2a _ C63))), IH.
    reflexivity.
Qed.

(** [base64.b64decode(base64.b64encode(data).decode()) == data] *)
Lemma b64decode_b64encode (data : list byte) :
  base64_b64decode (b2a_base64 data) = inr data.
Proof.
  unfold base64_b64decode. cbv zeta.
  rewrite b2a_base64_ascii. apply (a2b_loop_b2a data []).
Qed.

(** Four characters for every three bytes, the last group padded. *)
Lemma b2a_base64_length (data : list byte) :
  String.length (b2a_base64 data) = (4 * ((List.length data + 2) / 3))%nat.
Proof.
  induction data as [| a | a b | a b c r IH] using list_ind3;
    try reflexivity.
  cbn [b2a_base64 String.length List.length]. rewrite IH.
  replace (S (S (S (List.length r))) + 2)%nat
    with ((List.length r + 2) + 1 * 3)%nat by lia.
  rewrite Nat.div_add by lia. lia.
Qed.

End ReferenceCodec.

(** On the reference instance the codec is faithful on every key pair. *)
Lemma reference_codec_faithful (kp : KeyPair.t) :
  @constructed reference kp -> @codec_faithful_on reference kp.
Proof.
  intros H. apply constructed_inv in H.
  destruct H as (cls & pub & priv & -> & _ & Lp & Ls).
  split.
  - change (String.length
              (Reference.b2a_base64
                 (KeyPair.to_bytes (keypair_object cls pub priv)))
            = SUI_KEYPAIR_LEN).
    rewrite ReferenceCodec.b2a_base64_length, to_bytes_cons.
    cbn [List.length]. rewrite length_app, Lp, Ls.
    destruct cls; reflexivity.
  - apply ReferenceCodec.b64decode_b64encode.
Qed.

Lemma reference_constructed_ed25519 :
  @constructed reference Sample.ed25519_keypair.
Proof.
  exists Sample.ed25519_public, Sample.ed25519_private.
  left. vm_compute. reflexivity.
Qed.


Lemma reference_constructed_secp256k1 :
  @constructed reference Sample.secp256k1_keypair.
Proof.
  exists Sample.secp256k1_public, Sample.secp256k1_private.
  right. vm_compute. reflexivity.
Qed.

(** On the reference instance [keypair_from_keystring] reads back the
    encoding of every key pair, and the ED25519 [from_b64] that of every
    ED25519 key pair. *)
Lemma reference_keypair_from_keystring_to_b64 (kp : KeyPair.t) :
  @constructed reference kp ->
  outcome (@keypair_from_keystring reference (@KeyPair.to_b64 reference kp))
  = Ok kp.
Proof.
  intros H.
  rewrite (@keypair_from_keystring_to_b64 reference kp H
             (reference_codec_faithful kp H)).
  reflexivity.
Qed.

Lemma reference_ed25519_from_b64_to_b64 (kp : KeyPair.t) :
  @constructed reference kp ->
  KeyPair.__class__ kp = SuiKeyPairED25519_class ->
  outcome (@SuiKeyPairED25519.from_b64 reference
             (@KeyPair.to_b64 reference kp))
  = Ok kp.
Proof.
  intros H C.
  rewrite (@ed25519_from_b64_to_b64 reference kp H C
             (reference_codec_faithful kp H)).
  reflexivity.
Qed.

Lemma reference_codec_secp256k1 :
  @codec_faithful_on reference Sample.secp256k1_keypair.
Proof. exact (reference_codec_faithful _ reference_constructed_secp256k1). Qed.

(** ** Keys *)

Lemma key_reports_construction_arguments_witness :
  outcome (@key_constructor reference SuiPublicKeySECP256K1_class
             Sample.secp256k1_public)
  = Ok (Key.__init__ SuiPublicKeySECP256K1_class SECP256K1
          Sample.secp256k1_public)
  /\ Key.key_bytes (Key.__init__ SuiPublicKeySECP256K1_class SECP256K1
                      Sample.secp256k1_public)
     = Sample.secp256k1_public.
Proof.
  assert (H : outcome (@key_constructor reference SuiPublicKeySECP256K1_class
                         Sample.secp256k1_public)
              = Ok (Key.__init__ SuiPublicKeySECP256K1_class SECP256K1
                      Sample.secp256k1_public))
    by (vm_compute; reflexivity).
  split; [exact H |].
  exact (proj1 (@key_reports_construction_arguments reference _ _ _ H)).
Defined.

Lemma key_constructor_wrong_length_witness :
  List.length (repeat x00 31) <> class_length SuiPrivateKeyED25519_class
  /\ @key_constructor reference SuiPrivateKeyED25519_class (repeat x00 31)
     = ([], Raise (SuiInvalidKeyPair "Private Key expects 32 bytes, found 31")).
Proof.
  assert (H : List.length (repeat x00 31)
              <> class_length SuiPrivateKeyED25519_class)
    by (vm_compute; lia).
  split; [exact H |].
  exact (@key_constructor_wrong_length reference _ _ H).
Defined.

Example key_constructor_one_byte_too_long :
  @key_constructor reference SuiPublicKeySECP256K1_class
    (Sample.secp256k1_public ++ [x00])%list
  = ([], Raise (SuiInvalidKeyPair "Public Key expects 33 bytes, found 34")).
Proof. vm_compute. reflexivity. Qed.

(** ** Decoding *)

Lemma wrong_length_rejected_before_decoding_witness :
  String.length "AQID" <> SUI_KEYPAIR_LEN
  /\ @keypair_from_keystring reference "AQID"
     = ([], Raise (SuiInvalidKeystringLength 4)).
Proof.
  assert (H : String.length "AQID" <> SUI_KEYPAIR_LEN)
    by (vm_compute; lia).
  split; [exact H |].
  exact (proj2 (proj2 (@wrong_length_rejected_before_decoding reference _ H))).
Defined.

(** C1 fails as stated: [from_bytes] raises on the 65 bytes that
    [to_bytes] returns for an ED25519 key pair, and on the 66 bytes it
    returns for a SECP256K1 key pair. *)
Lemma from_bytes_of_to_bytes_raises :
  @constructed reference Sample.ed25519_keypair
  /\ List.length (KeyPair.to_bytes Sample.ed25519_keypair) = 65
  /\ outcome (@SuiKeyPairED25519.from_bytes reference
                (KeyPair.to_bytes Sample.ed25519_keypair))
     = Raise (SuiInvalidKeyPair "Expect bytes len of 64")
  /\ outcome (@SuiKeyPairED25519.from_bytes reference
                (KeyPair.to_bytes Sample.ed25519_keypair))
     <> Ok Sample.ed25519_keypair
  /\ @constructed reference Sample.secp256k1_keypair
  /\ outcome (@SuiKeyPairSECP256K1.from_bytes reference
                (KeyPair.to_bytes Sample.secp256k1_keypair))
     = Raise (SuiInvalidKeyPair "Expect bytes len of 65").
Proof.
  split; [exact reference_constructed_ed25519 |].
  split; [reflexivity |].
  split; [vm_compute; reflexivity |].
  split; [vm_compute; discriminate |].
  split; [exact reference_constructed_secp256k1 |].
  vm_compute; reflexivity.
Qed.

Lemma from_bytes_inverts_to_bytes_without_tag_witness :
  @constructed reference Sample.ed25519_keypair
  /\ @SuiKeyPairED25519.from_bytes reference
       (skipn 1 (KeyPair.to_bytes Sample.ed25519_keypair))
     = ([], Ok Sample.ed25519_keypair).
Proof.
  split; [exact reference_constructed_ed25519 |].
  exact (proj2 (proj2 (@from_bytes_inverts_to_bytes_without_tag reference _
                         reference_constructed_ed25519))).
Defined.

Lemma secp256k1_from_b64_rejects_own_encoding_witness :
  @KeyPair.to_b64 reference Sample.secp256k1_keypair
  = Sample.secp256k1_keystring
  /\ @SuiKeyPairSECP256K1.from_b64 reference Sample.secp256k1_keystring
     = ([Call_b64decode Sample.secp256k1_keystring],
        Raise (SuiInvalidKeyPair "Expect bytes len of 64")).
Proof.
  split; [vm_compute; reflexivity |].
  exact (@secp256k1_from_b64_rejects_own_encoding reference _
           reference_constructed_secp256k1 eq_refl reference_codec_secp256k1).
Defined.

Example ed25519_from_b64_reads_own_encoding :
  @SuiKeyPairED25519.from_b64 reference Sample.ed25519_keystring
  = ([Call_b64decode Sample.ed25519_keystring], Ok Sample.ed25519_keypair).
Proof. vm_compute. reflexivity. Qed.

Example keypair_from_keystring_reads_secp256k1 :
  @keypair_from_keystring reference Sample.secp256k1_keystring
  = ([Call_b64decode Sample.secp256k1_keystring],
     Ok Sample.secp256k1_keypair).
Proof. vm_compute. reflexivity. Qed.

(** The same slip seen from the other side: on a SECP256K1-tagged string
    with a 64-byte payload, [SuiKeyPairSECP256K1.from_b64] returns a key
    pair of the ED25519 class. *)
Example secp256k1_from_b64_returns_ed25519 :
  @SuiKeyPairSECP256K1.from_b64 reference
    (Reference.b2a_base64
       (x01 :: Sample.ed25519_public ++ Sample.ed25519_private))
  = ([Call_b64decode
        (Reference.b2a_base64
           (x01 :: Sample.ed25519_public ++ Sample.ed25519_private))],
     Ok Sample.ed25519_keypair).
Proof. vm_compute. reflexivity. Qed.

(** A SECP256K1 key string whose tag byte is replaced by 0 has the right
    length and the tag 0, and is rejected by the ED25519 [from_bytes]. *)
Example retagged_secp256k1_keystring_is_rejected :
  String.length
    (Reference.b2a_base64
       (x00 :: skipn 1 (KeyPair.to_bytes Sample.secp256k1_keypair)))
  = SUI_KEYPAIR_LEN
  /\ outcome
       (@keypair_from_keystring reference
          (Reference.b2a_base64
             (x00 :: skipn 1 (KeyPair.to_bytes Sample.secp256k1_keypair))))
     = Raise (SuiInvalidKeyPair "Expect bytes len of 64").
Proof. split; vm_compute; reflexivity. Qed.

(** C3 fails as stated: 88 characters "A" have the key-string length and
    decode to 66 bytes beginning with the tag 0, and the result is not an
    ED25519 key pair but the length error of [from_bytes]. *)
Lemma tag_zero_keystring_is_rejected :
  String.length Sample.zeros_keystring = SUI_KEYPAIR_LEN
  /\ @b64decode reference Sample.zeros_keystring = inr (x00 :: repeat x00 65)
  /\ @keypair_from_keystring reference Sample.zeros_keystring
     = ([Call_b64decode Sample.zeros_keystring],
        Raise (SuiInvalidKeyPair "Expect bytes len of 64")).
Proof. repeat split; vm_compute; reflexivity. Qed.

Lemma keypair_from_keystring_dispatch_witness :
  String.length Sample.ed25519_keystring = SUI_KEYPAIR_LEN
  /\ @b64decode reference Sample.ed25519_keystring
     = inr (x00 :: Sample.ed25519_public ++ Sample.ed25519_private)%list
  /\ outcome (@keypair_from_keystring reference Sample.ed25519_keystring)
     = Ok Sample.ed25519_keypair.
Proof.
  assert (L : String.length Sample.ed25519_keystring = SUI_KEYPAIR_LEN)
    by reflexivity.
  assert (D : @b64decode reference Sample.ed25519_keystring
              = inr (x00 :: Sample.ed25519_public
                       ++ Sample.ed25519_private)%list)
    by (vm_compute; reflexivity).
  split; [exact L |]. split; [exact D |].
  exact (proj2 (proj2 (proj1 (@keypair_from_keystring_dispatch reference
                                _ _ _ L D)
                         SuiKeyPairED25519_class eq_refl))
           Sample.ed25519_keypair reference_constructed_ed25519
           eq_refl eq_refl).
Defined.

Example keypair_from_keystring_unknown_tag :
  @keypair_from_keystring reference
    (Reference.b2a_base64 (x02 :: repeat x00 64))
  = ([Call_b64decode (Reference.b2a_base64 (x02 :: repeat x00 64))],
     Raise NotImplementedError).
Proof. vm_compute. reflexivity. Qed.

(** ** Addresses *)

(** C4 fails as stated in its last clause: on the 65 bytes of an ED25519
    key pair the hash is called on bytes [0:33], and the address returned
    is not the first 40 hexadecimal characters of the digest but "0x"
    followed by them. *)
Lemma address_is_not_the_bare_hex_prefix :
  34 <= List.length (KeyPair.to_bytes Sample.ed25519_keypair)
  /\ decode_utf8
       (firstn 40
          (hexlify
             (@sha3_256 reference
                (firstn 33 (KeyPair.to_bytes Sample.ed25519_keypair)))))
     = "d6aa4fbf772d5c24d70821f8d7b4c451483e5f44"
  /\ @SuiAddress.from_bytes reference (KeyPair.to_bytes Sample.ed25519_keypair)
     = ([Call_sha3_256 (firstn 33 (KeyPair.to_bytes Sample.ed25519_keypair))],
        Ok {| SuiAddress.identifier :=
                "0xd6aa4fbf772d5c24d70821f8d7b4c451483e5f44";
              SuiAddress.address :=
                "0xd6aa4fbf772d5c24d70821f8d7b4c451483e5f44" |})
  /\ String.eqb "0xd6aa4fbf772d5c24d70821f8d7b4c451483e5f44"
       "d6aa4fbf772d5c24d70821f8d7b4c451483e5f44" = false.
Proof.
  split; [cbn; lia |]. repeat split; vm_compute; reflexivity.
Qed.

Lemma address_hashes_digest_window_witness :
  34 <= List.length (KeyPair.to_bytes Sample.secp256k1_keypair)
  /\ @digest_size_law reference
  /\ trace (@SuiAddress.from_bytes reference
              (KeyPair.to_bytes Sample.secp256k1_keypair))
     = [Call_sha3_256 (firstn 34 (KeyPair.to_bytes Sample.secp256k1_keypair))].
Proof.
  assert (L : 34 <= List.length (KeyPair.to_bytes Sample.secp256k1_keypair))
    by (cbn; lia).
  split; [exact L |]. split; [exact reference_digest_size |].
  exact (proj1 (proj2 (@address_hashes_digest_window reference _ L
                         reference_digest_size))).
Defined.

(** C5 fails as stated: on 34 zero bytes the address string has 42
    characters, of which the first two, "0x", are a prefix and "x" is not
    a hexadecimal digit. *)
Lemma address_string_has_42_characters :
  List.length (repeat x00 34) = 34
  /\ @SuiAddress.from_bytes reference (repeat x00 34)
     = ([Call_sha3_256 (repeat x00 33)],
        Ok {| SuiAddress.identifier :=
                "0xdc33296e4d20f0ef35ff9fd449e23ebbaa5a049a";
              SuiAddress.address :=
                "0xdc33296e4d20f0ef35ff9fd449e23ebbaa5a049a" |})
  /\ String.length "0xdc33296e4d20f0ef35ff9fd449e23ebbaa5a049a" = 42
  /\ all_chars is_hex_char "0xdc33296e4d20f0ef35ff9fd449e23ebbaa5a049a"
     = false.
Proof. repeat split; vm_compute; reflexivity. Qed.

Lemma address_is_0x_and_40_hex_characters_witness :
  34 <= List.length (repeat xff 34)
  /\ @digest_size_law reference
  /\ exists addr h,
       outcome (@SuiAddress.from_bytes reference (repeat xff 34)) = Ok addr
       /\ SuiAddress.address addr = "0x" ++ h
       /\ String.length h = 40
       /\ all_chars is_hex_char h = true
       /\ String.length (SuiAddress.address addr) = 42.
Proof.
  assert (L : 34 <= List.length (repeat xff 34)) by (cbn; lia).
  split; [exact L |]. split; [exact reference_digest_size |].
  exact (@address_is_0x_and_40_hex_characters reference _ L
           reference_digest_size).
Defined.


Example secp256k1_address_ignores_private_key :
  @SuiAddress.from_bytes reference (KeyPair.to_bytes Sample.secp256k1_keypair)
  = @SuiAddress.from_bytes reference
      (KeyPair.to_bytes Sample.secp256k1_keypair').
Proof. vm_compute. reflexivity. Qed.

Example secp256k1_address :
  @create_new_address_of reference Sample.secp256k1_keypair
  = ([Call_sha3_256 (x01 :: Sample.secp256k1_public)],
     Ok (Sample.secp256k1_keypair,
         {| SuiAddress.identifier :=
              "0x6458f7674c0b0261495bd7325fa0d0c11d2ce144";
            SuiAddress.address :=
              "0x6458f7674c0b0261495bd7325fa0d0c11d2ce144" |})).
Proof. vm_compute. reflexivity. Qed.

(** ** [address_from_keystring] on the reference instance *)

Example address_from_keystring_valid :
  @address_from_keystring reference Sample.ed25519_keystring
  = ([Call_b64decode Sample.ed25519_keystring;
      Call_b64decode Sample.ed25519_keystring;
      Call_sha3_256 (x00 :: Sample.ed25519_public)],
     Ok {| SuiAddress.identifier :=
             "0xd6aa4fbf772d5c24d70821f8d7b4c451483e5f44";
           SuiAddress.address :=
             "0xd6aa4fbf772d5c24d70821f8d7b4c451483e5f44" |}).
Proof. vm_compute. reflexivity. Qed.

Example address_from_keystring_malformed :
  @address_from_keystring reference "AQID"
  = ([], Raise (SuiInvalidKeystringLength 4))
  /\ @address_from_keystring reference Sample.zeros_keystring
     = ([Call_b64decode Sample.zeros_keystring],
        Raise (SuiInvalidKeyPair "Expect bytes len of 64"))
  /\ @address_from_keystring reference
       (string_of_list_byte (repeat x21 88))
     = ([Call_b64decode (string_of_list_byte (repeat x21 88))],
        Raise IndexError)
  /\ @address_from_keystring reference
       (string_of_list_byte (repeat x41 85 ++ repeat x3d 3))
     = ([Call_b64decode (string_of_list_byte (repeat x41 85 ++ repeat x3d 3))],
        Raise (ExternalError "binascii.Error")).
Proof. repeat split; vm_compute; reflexivity. Qed.

(** * Further properties of the decoders *)

Lemma byte_val_inj (a b : byte) : byte_val a = byte_val b -> a = b.
Proof.
  unfold byte_val. intros H. apply N2Z.inj in H.
  pose proof (Byte.of_to_N a) as Ha. rewrite H, Byte.of_to_N in Ha.
  now injection Ha.
Qed.

Section Decoders.

Context {X : Externals}.

(** Each [from_b64] on a string of the right length, by cases on what the
    decoder answers. *)
Lemma from_b64_of_cases (cls : KeyPairClass) (s : string) :
  String.length s = SUI_KEYPAIR_LEN ->
  from_b64_of cls s =
  ([Call_b64decode s],
   match b64decode s with
   | inl name => Raise (ExternalError name)
   | inr [] => Raise IndexError
   | inr (tag :: payload) =>
       if (byte_val tag =? scheme_value (keypair_scheme cls))%Z then
         outcome (from_bytes_of SuiKeyPairED25519_class payload)
       else Raise (SuiInvalidKeyPair (from_b64_message cls))
   end).
Proof.
  intros L. destruct (b64decode s) as [name | [| tag payload]] eqn:D.
  - destruct cls; cbn [from_b64_of];
      [unfold SuiKeyPairED25519.from_b64
      | unfold SuiKeyPairSECP256K1.from_b64];
      rewrite L, Nat.eqb_refl, (call_b64decode_inl _ _ D); reflexivity.
  - destruct cls; cbn [from_b64_of];
      [unfold SuiKeyPairED25519.from_b64
      | unfold SuiKeyPairSECP256K1.from_b64];
      rewrite L, Nat.eqb_refl, (call_b64decode_inr _ _ D); reflexivity.
  - rewrite (from_b64_of_decoded cls s tag payload L D).
    destruct cls; reflexivity.
Qed.

Lemma from_b64_of_wrong_length (cls : KeyPairClass) (s : string) :
  String.length s <> SUI_KEYPAIR_LEN ->
  from_b64_of cls s = ([], Raise (SuiInvalidKeyPair "Expect str len of 88")).
Proof.
  intros L.
  destruct cls; cbn [from_b64_of];
    [unfold SuiKeyPairED25519.from_b64 | unfold SuiKeyPairSECP256K1.from_b64];
    destruct (Nat.eqb_spec (String.length s) SUI_KEYPAIR_LEN);
    try contradiction; reflexivity.
Qed.

(** [keypair_from_keystring] on a string of the right length, likewise. *)
Lemma keypair_from_keystring_cases (s : string) :
  String.length s = SUI_KEYPAIR_LEN ->
  keypair_from_keystring s =
  ([Call_b64decode s],
   match b64decode s with
   | inl name => Raise (ExternalError name)
   | inr [] => Raise IndexError
   | inr (tag :: payload) =>
       if (byte_val tag =? 0)%Z then
         outcome (from_bytes_of SuiKeyPairED25519_class payload)
       else if (byte_val tag =? 1)%Z then
         outcome (from_bytes_of SuiKeyPairSECP256K1_class payload)
       else Raise NotImplementedError
   end).
Proof.
  intros L. destruct (b64decode s) as [name | [| tag payload]] eqn:D.
  - unfold keypair_from_keystring.
    rewrite L, Nat.eqb_refl, (call_b64decode_inl _ _ D). reflexivity.
  - unfold keypair_from_keystring.
    rewrite L, Nat.eqb_refl, (call_b64decode_inr _ _ D). reflexivity.
  - apply (keypair_from_keystring_decoded s tag payload L D).
Qed.

(** What a returning [from_b64] has seen. *)
Lemma from_b64_of_Ok (cls : KeyPairClass) (s : string) (kp : KeyPair.t) :
  outcome (from_b64_of cls s) = Ok kp ->
  String.length s = SUI_KEYPAIR_LEN
  /\ exists tag payload,
       b64decode s = inr (tag :: payload)
       /\ byte_val tag = scheme_value (keypair_scheme cls)
       /\ outcome (from_bytes_of SuiKeyPairED25519_class payload) = Ok kp.
Proof.
  intros H.
  destruct (Nat.eq_dec (String.length s) SUI_KEYPAIR_LEN) as [L | L].
  - split; [exact L |].
    rewrite (from_b64_of_cases cls s L), outcome_pair in H.
    destruct (b64decode s) as [name | [| tag payload]];
      try discriminate H.
    exists tag, payload.
    destruct (Z.eqb_spec (byte_val tag) (scheme_value (keypair_scheme cls)));
      [auto | discriminate H].
  - rewrite (from_b64_of_wrong_length cls s L) in H. discriminate H.
Qed.

End Decoders.

(** X1.  [SuiKeyPairED25519.from_b64] inverts [to_b64] on ED25519 key
    pairs: for every ED25519 key pair [kp] a constructor has returned, and
    a base64 codec faithful on its serialisation, decoding [kp.to_b64()]
    returns a key pair equal to [kp]; the serialisation is the tag 0
    followed by the public and the private key bytes. *)
Theorem ed25519_from_b64_inverts_to_b64
    {X : Externals} (kp : KeyPair.t) :
  constructed kp ->
  KeyPair.__class__ kp = SuiKeyPairED25519_class ->
  codec_faithful_on kp ->
  outcome (SuiKeyPairED25519.from_b64 (KeyPair.to_b64 kp)) = Ok kp
  /\ KeyPair.to_bytes kp
     = (x00 :: Key.key_bytes (KeyPair.public_key kp)
          ++ Key.key_bytes (KeyPair.private_key kp))%list.
Proof.
  intros H C F. split.
  - rewrite ed25519_from_b64_to_b64 by assumption. reflexivity.
  - apply constructed_inv in H.
    destruct H as (cls & pub & priv & -> & _).
    cbn in C. subst cls. reflexivity.
Qed.

(** X2.  [keypair_from_keystring] inverts [to_b64] on key pairs of both
    classes: for every key pair [kp] a constructor has returned, and a
    base64 codec faithful on its serialisation, decoding [kp.to_b64()]
    returns a key pair equal to [kp], of [kp]'s own class. *)
Theorem keypair_from_keystring_inverts_to_b64
    {X : Externals} (kp : KeyPair.t) :
  constructed kp ->
  codec_faithful_on kp ->
  keypair_from_keystring (KeyPair.to_b64 kp)
  = ([Call_b64decode (KeyPair.to_b64 kp)], Ok kp).
Proof.
  intros H F. apply keypair_from_keystring_to_b64; assumption.
Qed.

(** X3.  [to_bytes] after [from_bytes]: whenever the [from_bytes] of either
    class returns a key pair on [indata], [indata] has that class's
    length (64 or 65), the key pair's public and private key bytes are the
    two slices of [indata], and its [to_bytes] is the class's tag byte
    followed by [indata]. *)
Theorem to_bytes_after_from_bytes
    {X : Externals} (cls : KeyPairClass) (indata : list byte)
    (kp : KeyPair.t) :
  outcome (from_bytes_of cls indata) = Ok kp ->
  List.length indata = keypair_bytes_length cls
  /\ Key.key_bytes (KeyPair.public_key kp)
     = firstn (class_length (public_key_class cls)) indata
  /\ Key.key_bytes (KeyPair.private_key kp)
     = skipn (class_length (public_key_class cls)) indata
  /\ KeyPair.to_bytes kp
     = (scheme_to_bytes (keypair_scheme cls) ++ indata)%list
  /\ KeyPair.__class__ kp = cls.
Proof.
  rewrite from_bytes_of_unfold.
  destruct (Nat.eqb_spec (List.length indata) (keypair_bytes_length cls))
    as [L | L]; cbn [negb]; [| discriminate].
  intros H. apply keypair_constructor_Ok in H.
  destruct H as (_ & _ & _ & _ & ->).
  split; [exact L |].
  split; [reflexivity |]. split; [reflexivity |].
  split; [| reflexivity].
  rewrite to_bytes_object, firstn_skipn. reflexivity.
Qed.

(** X4.  A [from_b64] that finds another tag than its own scheme's: on a
    string of the key-string length that decodes to [tag :: payload] with
    [tag] different from the value of the class's scheme,
    [SuiKeyPairED25519.from_b64] raises [SuiInvalidKeyPair] "Scheme not
    ED25519" and [SuiKeyPairSECP256K1.from_b64] raises "Scheme not
    SECP256K1", after the one decoder call and whatever the payload. *)
Theorem from_b64_rejects_other_tag
    {X : Externals} (cls : KeyPairClass) (s : string) (tag : byte)
    (payload : list byte) :
  String.length s = SUI_KEYPAIR_LEN ->
  b64decode s = inr (tag :: payload) ->
  byte_val tag <> scheme_value (keypair_scheme cls) ->
  from_b64_of cls s
  = ([Call_b64decode s], Raise (SuiInvalidKeyPair (from_b64_message cls))).
Proof.
  intros L D T. rewrite (from_b64_of_cases cls s L), D.
  destruct (Z.eqb_spec (byte_val tag) (scheme_value (keypair_scheme cls)));
    [contradiction | reflexivity].
Qed.

(** X5.  Every key pair a [from_b64] returns is an ED25519 key pair: when
    [SuiKeyPairSECP256K1.from_b64] (or [SuiKeyPairED25519.from_b64])
    returns, the string decoded to its scheme's tag followed by 64 bytes,
    and the result is of class [SuiKeyPairED25519] with scheme [ED25519],
    built from those 64 bytes.  [SuiKeyPairSECP256K1.from_b64] never
    returns a [SuiKeyPairSECP256K1]. *)
Theorem from_b64_returns_only_ed25519
    {X : Externals} (cls : KeyPairClass) (s : string) (kp : KeyPair.t) :
  outcome (from_b64_of cls s) = Ok kp ->
  KeyPair.__class__ kp = SuiKeyPairED25519_class
  /\ KeyPair.scheme kp = ED25519
  /\ exists payload,
       b64decode s = inr (scheme_to_bytes (keypair_scheme cls) ++ payload)%list
       /\ List.length payload = 64
       /\ KeyPair.to_bytes kp = (x00 :: payload)%list.
Proof.
  intros H. apply from_b64_of_Ok in H.
  destruct H as (_ & tag & payload & D & T & H).
  pose proof (to_bytes_cons SuiKeyPairED25519_class) as TB.
  apply from_bytes_of_Ok in H.
  destruct H as (L & C & S & P & K).
  split; [exact C |]. split; [exact S |].
  exists payload. split; [| split; [exact L |]].
  - assert (E : tag = match cls with
                      | SuiKeyPairED25519_class => x00
                      | SuiKeyPairSECP256K1_class => x01
                      end).
    { apply byte_val_inj. rewrite T. destruct cls; reflexivity. }
    rewrite D, E. destruct cls; reflexivity.
  - apply constructed_inv in K.
    destruct K as (cls' & pub & priv & -> & _).
    cbn in C. subst cls'. rewrite P, TB. reflexivity.
Qed.

Section DecodersMore.

Context {X : Externals}.

Lemma address_from_keystring_Raise (s : string) (e : exn) :
  outcome (keypair_from_keystring s) = Raise e ->
  address_from_keystring s = (trace (keypair_from_keystring s), Raise e).
Proof.
  intros H. unfold address_from_keystring.
  rewrite (M_eta (keypair_from_keystring s)), H. reflexivity.
Qed.

Lemma address_from_keystring_Ok (s : string) (kp : KeyPair.t) :
  outcome (keypair_from_keystring s) = Ok kp ->
  exists tag payload,
    b64decode s = inr (tag :: payload)
    /\ address_from_keystring s
       = ([Call_b64decode s; Call_b64decode s;
           Call_sha3_256 (digest_window (tag :: payload))],
          Ok (SuiAddress.__init__ (hex40 (digest_window (tag :: payload))))).
Proof.
  intros H.
  destruct (keypair_from_keystring_Ok s kp H) as (L & T & tag & payload & D).
  exists tag, payload. split; [exact D |].
  unfold address_from_keystring.
  rewrite (M_eta (keypair_from_keystring s)), T, H, bind_Ok.
  rewrite (call_b64decode_inr _ _ D), bind_Ok.
  rewrite SuiAddress_from_bytes_cons. reflexivity.
Qed.

End DecodersMore.

(** X6.  Text of the right length that does not decode to a tagged
    payload.  On a string of the key-string length, when the decoder
    raises, both [from_b64] methods, [keypair_from_keystring] and
    [address_from_keystring] raise the decoder's exception; when it
    returns the empty byte sequence, all four raise [IndexError] from
    reading the tag byte.  In both cases the decoder has been called once
    and the hash not at all. *)
Theorem decoders_on_text_without_payload
    {X : Externals} (cls : KeyPairClass) (s : string) :
  String.length s = SUI_KEYPAIR_LEN ->
  (forall name,
      b64decode s = inl name ->
      from_b64_of cls s = ([Call_b64decode s], Raise (ExternalError name))
      /\ keypair_from_keystring s
         = ([Call_b64decode s], Raise (ExternalError name))
      /\ address_from_keystring s
         = ([Call_b64decode s], Raise (ExternalError name)))
  /\ (b64decode s = inr [] ->
      from_b64_of cls s = ([Call_b64decode s], Raise IndexError)
      /\ keypair_from_keystring s = ([Call_b64decode s], Raise IndexError)
      /\ address_from_keystring s = ([Call_b64decode s], Raise IndexError)).
Proof.
  intros L. split.
  - intros name D.
    pose proof (keypair_from_keystring_cases s L) as K. rewrite D in K.
    split; [rewrite (from_b64_of_cases cls s L), D; reflexivity |].
    split; [exact K |].
    rewrite (address_from_keystring_Raise s (ExternalError name))
      by (rewrite K; reflexivity).
    rewrite K. reflexivity.
  - intros D.
    pose proof (keypair_from_keystring_cases s L) as K. rewrite D in K.
    split; [rewrite (from_b64_of_cases cls s L), D; reflexivity |].
    split; [exact K |].
    rewrite (address_from_keystring_Raise s IndexError)
      by (rewrite K; reflexivity).
    rewrite K. reflexivity.
Qed.

(** X7.  What every constructed key pair satisfies: its scheme is its
    class's; both keys carry that same scheme and are of the class's public
    and private key classes; the key bytes have the mandated lengths; and
    [to_bytes] is one byte longer than what [from_bytes] accepts (65 or 66
    bytes) and begins with the byte whose value is the scheme's. *)
Theorem constructed_keypair_invariant
    {X : Externals} (kp : KeyPair.t) :
  constructed kp ->
  KeyPair.scheme kp = keypair_scheme (KeyPair.__class__ kp)
  /\ Key.scheme (KeyPair.public_key kp) = KeyPair.scheme kp
  /\ Key.scheme (KeyPair.private_key kp) = KeyPair.scheme kp
  /\ Key.__class__ (KeyPair.public_key kp)
     = public_key_class (KeyPair.__class__ kp)
  /\ Key.__class__ (KeyPair.private_key kp)
     = private_key_class (KeyPair.__class__ kp)
  /\ List.length (Key.key_bytes (KeyPair.public_key kp))
     = class_length (public_key_class (KeyPair.__class__ kp))
  /\ List.length (Key.key_bytes (KeyPair.private_key kp))
     = class_length (private_key_class (KeyPair.__class__ kp))
  /\ List.length (KeyPair.to_bytes kp)
     = S (keypair_bytes_length (KeyPair.__class__ kp))
  /\ exists tag rest,
       KeyPair.to_bytes kp = tag :: rest
       /\ byte_val tag = scheme_value (KeyPair.scheme kp).
Proof.
  intros H. apply constructed_inv in H.
  destruct H as (cls & pub & priv & -> & _ & Lp & Ls).
  cbn [KeyPair.scheme KeyPair._scheme KeyPair.__class__ keypair_object
       KeyPair.public_key KeyPair._public_key KeyPair.private_key
       KeyPair._private_key Key.scheme Key._scheme Key.__class__
       Key.__init__ Key.key_bytes Key._keybytes].
  repeat (split; [first [reflexivity | assumption] |]).
  split.
  - rewrite to_bytes_cons. cbn [List.length].
    rewrite length_app, Lp, Ls, keypair_lengths. reflexivity.
  - rewrite to_bytes_cons. eexists. eexists. split; [reflexivity |].
    destruct cls; reflexivity.
Qed.

(** X8.  A key-pair constructor given a byte sequence of the wrong length
    for either key returns nothing: it raises.  When the key it builds
    first has the wrong length (the private key for
    [SuiKeyPairED25519], the public key for [SuiKeyPairSECP256K1]) the
    exception is that key's [SuiInvalidKeyPair], whatever the other
    argument is. *)
Theorem keypair_constructor_rejects_wrong_length
    {X : Externals} (cls : KeyPairClass) (pub priv : list byte) :
  List.length pub <> class_length (public_key_class cls)
  \/ List.length priv <> class_length (private_key_class cls) ->
  (exists e, outcome (keypair_constructor cls pub priv) = Raise e)
  /\ (forall kp, outcome (keypair_constructor cls pub priv) <> Ok kp)
  /\ (List.length priv <> 32 ->
      outcome (SuiKeyPairED25519.__init__ pub priv)
      = Raise (SuiInvalidKeyPair
                 ("Private Key expects 32 bytes, found "
                    ++ str_of_nat (List.length priv))))
  /\ (List.length pub <> 33 ->
      outcome (SuiKeyPairSECP256K1.__init__ pub priv)
      = Raise (SuiInvalidKeyPair
                 ("Public Key expects 33 bytes, found "
                    ++ str_of_nat (List.length pub)))).
Proof.
  intros H.
  assert (N : forall kp, outcome (keypair_constructor cls pub priv) <> Ok kp).
  { intros kp E. apply keypair_constructor_Ok in E.
    destruct E as (Lp & _ & Ls & _). destruct H; contradiction. }
  split; [| split; [exact N | split]].
  - destruct (outcome (keypair_constructor cls pub priv)) as [kp | e] eqn:E;
      [exfalso; exact (N kp eq_refl) | eexists; reflexivity].
  - intros L.
    change (SuiKeyPairED25519.__init__ pub priv)
      with (keypair_constructor SuiKeyPairED25519_class pub priv).
    rewrite keypair_constructor_unfold, outcome_pair.
    cbn [private_key_class]. rewrite key_constructor_unfold.
    destruct (Nat.eqb_spec (List.length priv)
                (class_length SuiPrivateKeyED25519_class));
      [contradiction | reflexivity].
  - intros L.
    change (SuiKeyPairSECP256K1.__init__ pub priv)
      with (keypair_constructor SuiKeyPairSECP256K1_class pub priv).
    rewrite keypair_constructor_unfold, outcome_pair.
    cbn [public_key_class]. rewrite key_constructor_unfold.
    destruct (Nat.eqb_spec (List.length pub)
                (class_length SuiPublicKeySECP256K1_class));
      [contradiction | reflexivity].
Qed.

(** X16.  [to_bytes] after [keypair_from_keystring]: whenever
    [keypair_from_keystring] returns a key pair on [s], [s] has the
    key-string length, the key pair is one a constructor returned, and its
    [to_bytes] is exactly the byte sequence [s] decodes to. *)
Theorem to_bytes_after_keypair_from_keystring
    {X : Externals} (s : string) (kp : KeyPair.t) :
  outcome (keypair_from_keystring s) = Ok kp ->
  String.length s = SUI_KEYPAIR_LEN
  /\ constructed kp
  /\ b64decode s = inr (KeyPair.to_bytes kp).
Proof.
  intros H.
  destruct (keypair_from_keystring_Ok s kp H) as (L & _ & tag & payload & D).
  split; [exact L |].
  rewrite (keypair_from_keystring_decoded s tag payload L D),
    outcome_pair in H.
  destruct (Z.eqb_spec (byte_val tag) 0) as [T0 | T0].
  - apply from_bytes_of_Ok in H. destruct H as (_ & C & _ & P & K).
    split; [exact K |].
    apply constructed_inv in K. destruct K as (cls & pub & priv & -> & _).
    cbn in C. subst cls. rewrite D, P, to_bytes_cons.
    replace tag with x00 by (apply byte_val_inj; rewrite T0; reflexivity).
    reflexivity.
  - destruct (Z.eqb_spec (byte_val tag) 1) as [T1 | T1];
      [| discriminate H].
    apply from_bytes_of_Ok in H. destruct H as (_ & C & _ & P & K).
    split; [exact K |].
    apply constructed_inv in K. destruct K as (cls & pub & priv & -> & _).
    cbn in C. subst cls. rewrite D, P, to_bytes_cons.
    replace tag with x01 by (apply byte_val_inj; rewrite T1; reflexivity).
    reflexivity.
Qed.

(** ** [address_from_keystring] *)

Lemma keypair_from_keystring_Ok_to_bytes
    {X : Externals} (s : string) (kp : KeyPair.t) :
  outcome (keypair_from_keystring s) = Ok kp ->
  constructed kp /\ b64decode s = inr (KeyPair.to_bytes kp).
Proof.
  intros H.
  destruct (keypair_from_keystring_Ok s kp H) as (L & _ & tag & payload & D).
  rewrite (keypair_from_keystring_cases s L), D, outcome_pair in H.
  assert (R : forall cls t,
             outcome (from_bytes_of cls payload) = Ok kp ->
             tag = t ->
             KeyPair.to_bytes (keypair_object cls
                                 (firstn (class_length (public_key_class cls))
                                    payload)
                                 (skipn (class_length (public_key_class cls))
                                    payload))
             = t :: payload ->
             constructed kp /\ b64decode s = inr (KeyPair.to_bytes kp)).
  { intros cls t F -> T. pose proof F as F'.
    apply from_bytes_of_Ok in F'. destruct F' as (_ & _ & _ & _ & K).
    split; [exact K |].
    rewrite from_bytes_of_unfold in F.
    destruct (negb _); [discriminate F |].
    apply keypair_constructor_Ok in F. destruct F as (_ & _ & _ & _ & ->).
    rewrite D, T. reflexivity. }
  destruct (Z.eqb_spec (byte_val tag) 0) as [T0 | T0].
  - apply (R SuiKeyPairED25519_class x00 H).
    + apply byte_val_inj. rewrite T0. reflexivity.
    + rewrite to_bytes_cons, firstn_skipn. reflexivity.
  - destruct (Z.eqb_spec (byte_val tag) 1) as [T1 | T1];
      [| discriminate H].
    apply (R SuiKeyPairSECP256K1_class x01 H).
    + apply byte_val_inj. rewrite T1. reflexivity.
    + rewrite to_bytes_cons, firstn_skipn. reflexivity.
Qed.

(** What [address_from_keystring] does once the key pair has been
    accepted. *)
Lemma address_from_keystring_accepted
    {X : Externals} (s : string) (kp : KeyPair.t) :
  outcome (keypair_from_keystring s) = Ok kp ->
  address_from_keystring s
  = ([Call_b64decode s; Call_b64decode s;
      Call_sha3_256 (scheme_to_bytes (KeyPair.scheme kp)
                       ++ Key.key_bytes (KeyPair.public_key kp))%list],
     Ok (SuiAddress.__init__
           (hex40 (scheme_to_bytes (KeyPair.scheme kp)
                     ++ Key.key_bytes (KeyPair.public_key kp))%list))).
Proof.
  intros H.
  destruct (keypair_from_keystring_Ok_to_bytes s kp H) as (K & D).
  destruct (address_from_keystring_Ok s kp H) as (tag & payload & D' & R).
  assert (E : KeyPair.to_bytes kp = tag :: payload) by congruence.
  assert (W : digest_window (tag :: payload)
              = (scheme_to_bytes (KeyPair.scheme kp)
                   ++ Key.key_bytes (KeyPair.public_key kp))%list).
  { rewrite <- E. pose proof K as K'. apply constructed_inv in K'.
    destruct K' as (cls & pub & priv & -> & _ & Lp & _).
    apply digest_window_to_bytes. exact Lp. }
  rewrite R, W. reflexivity.
Qed.

(** C8, as the code has it.  [address_from_keystring] runs
    [keypair_from_keystring] first.  Whenever that raises,
    [address_from_keystring] raises the very same exception after the
    same calls, none of them to the hash, and returns no address.  That
    exception is not always the one of [from_b64]: on a string of the
    wrong length it is [SuiInvalidKeystringLength], and on a tag other
    than 0 and 1 it is [NotImplementedError], where both [from_b64]
    methods raise [SuiInvalidKeyPair]; when the decoder raises, the
    decoded bytes are empty or the tag is 0, it is the exception
    [SuiKeyPairED25519.from_b64] raises.  Whenever
    [keypair_from_keystring] returns a key pair [kp] (as it does on
    [kp.to_b64()] for every constructed [kp], given a faithful codec),
    the string decodes to [kp.to_bytes()] and the result is the address
    [SuiAddress.from_bytes] derives from that whole sequence: "0x"
    followed by the first 40 hexadecimal characters of the digest of the
    tag byte and the public key bytes, the one hash call coming after the
    validation. *)
Theorem address_from_keystring_validates_first {X : Externals} :
  digest_size_law ->
  (forall s : string,
      (forall e,
          outcome (keypair_from_keystring s) = Raise e ->
          address_from_keystring s
          = (trace (keypair_from_keystring s), Raise e)
          /\ existsb is_Call_sha3_256 (trace (address_from_keystring s))
             = false)
      /\ (String.length s <> SUI_KEYPAIR_LEN ->
          outcome (address_from_keystring s)
          = Raise (SuiInvalidKeystringLength (String.length s))
          /\ forall cls,
               outcome (from_b64_of cls s)
               = Raise (SuiInvalidKeyPair "Expect str len of 88"))
      /\ (String.length s = SUI_KEYPAIR_LEN ->
          forall tag payload,
            b64decode s = inr (tag :: payload) ->
            byte_val tag <> 0%Z ->
            byte_val tag <> 1%Z ->
            outcome (address_from_keystring s) = Raise NotImplementedError
            /\ forall cls,
                 outcome (from_b64_of cls s)
                 = Raise (SuiInvalidKeyPair (from_b64_message cls)))
      /\ (String.length s = SUI_KEYPAIR_LEN ->
          (forall tag payload,
              b64decode s = inr (tag :: payload) -> byte_val tag = 0%Z) ->
          forall e,
            outcome (SuiKeyPairED25519.from_b64 s) = Raise e ->
            outcome (address_from_keystring s) = Raise e)
      /\ (forall kp,
             outcome (keypair_from_keystring s) = Ok kp ->
             b64decode s = inr (KeyPair.to_bytes kp)
             /\ outcome (address_from_keystring s)
                = outcome (SuiAddress.from_bytes (KeyPair.to_bytes kp))
             /\ outcome (address_from_keystring s)
                = Ok {| SuiAddress.identifier :=
                          "0x" ++ decode_utf8
                                    (firstn 40
                                       (hexlify
                                          (sha3_256
                                             (scheme_to_bytes
                                                (KeyPair.scheme kp)
                                                ++ Key.key_bytes
                                                     (KeyPair.public_key kp))%list)));
                        SuiAddress.address :=
                          "0x" ++ decode_utf8
                                    (firstn 40
                                       (hexlify
                                          (sha3_256
                                             (scheme_to_bytes
                                                (KeyPair.scheme kp)
                                                ++ Key.key_bytes
                                                     (KeyPair.public_key kp))%list))) |}
             /\ exists before,
                  trace (address_from_keystring s)
                  = (before
                       ++ [Call_sha3_256
                             (scheme_to_bytes (KeyPair.scheme kp)
                                ++ Key.key_bytes (KeyPair.public_key kp))])%list
                  /\ existsb is_Call_sha3_256 before = false))
  /\ (forall kp : KeyPair.t,
         constructed kp ->
         codec_faithful_on kp ->
         outcome (keypair_from_keystring (KeyPair.to_b64 kp)) = Ok kp
         /\ outcome (address_from_keystring (KeyPair.to_b64 kp))
            = Ok {| SuiAddress.identifier :=
                      "0x" ++ decode_utf8
                                (firstn 40
                                   (hexlify
                                      (sha3_256
                                         (scheme_to_bytes (KeyPair.scheme kp)
                                            ++ Key.key_bytes
                                                 (KeyPair.public_key kp))%list)));
                    SuiAddress.address :=
                      "0x" ++ decode_utf8
                                (firstn 40
                                   (hexlify
                                      (sha3_256
                                         (scheme_to_bytes (KeyPair.scheme kp)
                                            ++ Key.key_bytes
                                                 (KeyPair.public_key kp))%list))) |}).
Proof.
  intros Hlaw.
  assert (V : forall s kp,
             outcome (keypair_from_keystring s) = Ok kp ->
             outcome (address_from_keystring s)
             = Ok {| SuiAddress.identifier :=
                       "0x" ++ hex40 (scheme_to_bytes (KeyPair.scheme kp)
                                        ++ Key.key_bytes
                                             (KeyPair.public_key kp))%list;
                     SuiAddress.address :=
                       "0x" ++ hex40 (scheme_to_bytes (KeyPair.scheme kp)
                                        ++ Key.key_bytes
                                             (KeyPair.public_key kp))%list |}).
  { intros s kp H. rewrite (address_from_keystring_accepted s kp H).
    rewrite outcome_pair, SuiAddress_init_40
      by (apply hex40_length; exact Hlaw).
    reflexivity. }
  split.
  - intros s. split; [| split; [| split; [| split]]].
    + intros e H.
      rewrite (address_from_keystring_Raise s e H), trace_pair.
      split; [reflexivity |].
      destruct (keypair_from_keystring_trace s) as [-> | ->]; reflexivity.
    + intros L. split.
      * rewrite (address_from_keystring_Raise s
                   (SuiInvalidKeystringLength (String.length s)))
          by (rewrite (keypair_from_keystring_wrong_length s L);
              reflexivity).
        reflexivity.
      * intros cls. rewrite (from_b64_of_wrong_length cls s L).
        reflexivity.
    + intros L tag payload D T0 T1.
      assert (K : outcome (keypair_from_keystring s)
                  = Raise NotImplementedError).
      { rewrite (keypair_from_keystring_cases s L), D, outcome_pair.
        destruct (Z.eqb_spec (byte_val tag) 0); [contradiction |].
        destruct (Z.eqb_spec (byte_val tag) 1); [contradiction |].
        reflexivity. }
      split.
      * rewrite (address_from_keystring_Raise s _ K). reflexivity.
      * intros cls. rewrite (from_b64_of_cases cls s L), D, outcome_pair.
        destruct (Z.eqb_spec (byte_val tag)
                    (scheme_value (keypair_scheme cls))) as [E | E];
          [destruct cls; cbn in E; contradiction | reflexivity].
    + intros L T e H.
      change (SuiKeyPairED25519.from_b64 s)
        with (from_b64_of SuiKeyPairED25519_class s) in H.
      rewrite (from_b64_of_cases _ s L), outcome_pair in H.
      assert (K : outcome (keypair_from_keystring s) = Raise e).
      { rewrite (keypair_from_keystring_cases s L), outcome_pair.
        destruct (b64decode s) as [name | [| tag payload]] eqn:D;
          try exact H.
        cbn [keypair_scheme scheme_value] in H.
        rewrite (T tag payload eq_refl) in *. exact H. }
      rewrite (address_from_keystring_Raise s e K). reflexivity.
    + intros kp H.
      destruct (keypair_from_keystring_Ok_to_bytes s kp H) as (K & D).
      split; [exact D |].
      split.
      * rewrite (address_from_keystring_accepted s kp H),
          (SuiAddress_from_bytes_to_bytes kp K).
        reflexivity.
      * split; [exact (V s kp H) |].
        exists [Call_b64decode s; Call_b64decode s].
        rewrite (address_from_keystring_accepted s kp H).
        split; reflexivity.
  - intros kp K F.
    pose proof (keypair_from_keystring_to_b64 kp K F) as R.
    assert (H : outcome (keypair_from_keystring (KeyPair.to_b64 kp)) = Ok kp)
      by (rewrite R; reflexivity).
    split; [exact H |]. exact (V _ kp H).
Qed.

(** * Further properties of addresses *)

Lemma firstn_hexlify (n : nat) (b : list byte) :
  firstn (2 * n) (hexlify b) = hexlify (firstn n b).
Proof.
  revert b. induction n as [| n IH]; intros [| x r]; try reflexivity.
  replace (2 * S n) with (S (S (2 * n))) by lia.
  cbn [hexlify firstn]. rewrite IH. reflexivity.
Qed.

Lemma String_length_append (a b : string) :
  String.length (a ++ b) = String.length a + String.length b.
Proof. induction a as [| c a IH]; cbn; [reflexivity | now rewrite IH]. Qed.

(** X9.  [SuiAddress.from_bytes] on any input.  On the empty sequence it
    raises [IndexError] without calling the hash.  On every non-empty
    sequence, however short, it returns an address after exactly one hash
    call, on the first 33 bytes (first byte 0) or 34 bytes (otherwise) of
    the input; an input of at most 33 bytes is hashed whole. *)
Theorem address_from_bytes_of_any_length
    {X : Externals} (in_bytes : list byte) :
  match in_bytes with
  | [] => SuiAddress.from_bytes in_bytes = ([], Raise IndexError)
  | first :: _ =>
      exists n addr,
        n = (if (byte_val first =? 0)%Z then 33 else 34)
        /\ SuiAddress.from_bytes in_bytes
           = ([Call_sha3_256 (firstn n in_bytes)], Ok addr)
        /\ List.length (firstn n in_bytes) <= 34
        /\ (List.length in_bytes <= 33 -> firstn n in_bytes = in_bytes)
  end.
Proof.
  destruct in_bytes as [| first rest]; [reflexivity |].
  exists (if (byte_val first =? 0)%Z then 33 else 34),
    (SuiAddress.__init__ (hex40 (digest_window (first :: rest)))).
  split; [reflexivity |].
  rewrite SuiAddress_from_bytes_cons. cbn [digest_window].
  split; [destruct (byte_val first =? 0)%Z; reflexivity |].
  split.
  - rewrite length_firstn. destruct (byte_val first =? 0)%Z; lia.
  - intros L. apply firstn_all2.
    destruct (byte_val first =? 0)%Z; lia.
Qed.

(** X10.  [SuiAddress.from_keypair_string] against
    [address_from_keystring].  Whenever [address_from_keystring] returns
    an address on [s], [from_keypair_string] returns the same address on
    [s].  [from_keypair_string] itself tests neither the length of [s] nor
    the payload: it returns an address as soon as [s] decodes to a
    non-empty byte sequence. *)
Theorem from_keypair_string_agrees_with_address_from_keystring
    {X : Externals} (s : string) :
  (forall addr,
      outcome (address_from_keystring s) = Ok addr ->
      outcome (SuiAddress.from_keypair_string s) = Ok addr)
  /\ (forall first rest,
         b64decode s = inr (first :: rest) ->
         SuiAddress.from_keypair_string s
         = ([Call_b64decode s;
             Call_sha3_256 (digest_window (first :: rest))],
            Ok (SuiAddress.__init__
                  (hex40 (digest_window (first :: rest)))))).
Proof.
  assert (K : forall first rest,
             b64decode s = inr (first :: rest) ->
             SuiAddress.from_keypair_string s
             = ([Call_b64decode s;
                 Call_sha3_256 (digest_window (first :: rest))],
                Ok (SuiAddress.__init__
                      (hex40 (digest_window (first :: rest)))))).
  { intros first rest D. unfold SuiAddress.from_keypair_string.
    rewrite (call_b64decode_inr _ _ D), bind_Ok, SuiAddress_from_bytes_cons.
    reflexivity. }
  split; [| exact K].
  intros addr H.
  destruct (outcome (keypair_from_keystring s)) as [kp | e] eqn:E.
  - destruct (address_from_keystring_Ok s kp E) as (tag & payload & D & A).
    rewrite A, outcome_pair in H. rewrite (K tag payload D), outcome_pair.
    exact H.
  - rewrite (address_from_keystring_Raise s e E) in H. discriminate H.
Qed.

(** X11.  The address read back from a key string is the key pair's
    address: for every key pair [kp] a constructor has returned, and a
    base64 codec faithful on its serialisation,
    [address_from_keystring (kp.to_b64())] returns the address that
    [SuiAddress.from_bytes (kp.to_bytes())] returns, the one
    [create_new_address] pairs with [kp]. *)
Theorem address_from_keystring_of_to_b64
    {X : Externals} (kp : KeyPair.t) :
  constructed kp ->
  codec_faithful_on kp ->
  exists addr,
    outcome (address_from_keystring (KeyPair.to_b64 kp)) = Ok addr
    /\ outcome (SuiAddress.from_bytes (KeyPair.to_bytes kp)) = Ok addr
    /\ outcome (create_new_address_of kp) = Ok (kp, addr)
    /\ addr = SuiAddress.__init__
                (hex40 (scheme_to_bytes (KeyPair.scheme kp)
                          ++ Key.key_bytes (KeyPair.public_key kp))%list).
Proof.
  intros H F.
  pose proof (keypair_from_keystring_to_b64 kp H F) as K.
  pose proof (SuiAddress_from_bytes_to_bytes kp H) as A. cbv zeta in A.
  destruct (address_from_keystring_Ok (KeyPair.to_b64 kp) kp)
    as (tag & payload & D & R); [rewrite K; reflexivity |].
  destruct F as (_ & F).
  assert (E : KeyPair.to_bytes kp = tag :: payload) by congruence.
  assert (W : digest_window (tag :: payload)
              = (scheme_to_bytes (KeyPair.scheme kp)
                   ++ Key.key_bytes (KeyPair.public_key kp))%list).
  { rewrite <- E. pose proof H as H'. apply constructed_inv in H'.
    destruct H' as (cls & pub & priv & -> & _ & Lp & _).
    apply digest_window_to_bytes. exact Lp. }
  exists (SuiAddress.__init__
            (hex40 (scheme_to_bytes (KeyPair.scheme kp)
                      ++ Key.key_bytes (KeyPair.public_key kp))%list)).
  split; [rewrite R, outcome_pair, W; reflexivity |].
  split; [rewrite A; reflexivity |].
  split; [| reflexivity].
  rewrite create_new_address_of_spec by exact H. reflexivity.
Qed.

(** X12.  [SuiAddress.__init__] settles after one application: the
    identifier and the address of the result are the same text; a text of
    40 characters is prefixed with "0x", any other is kept; and building
    an address from the text of an address gives that address again (no
    second prefix). *)
Theorem address_init_idempotent (identifier : string) :
  SuiAddress.identifier (SuiAddress.__init__ identifier)
  = SuiAddress.address (SuiAddress.__init__ identifier)
  /\ SuiAddress.address (SuiAddress.__init__ identifier)
     = (if (String.length identifier =? 40)%nat then "0x" ++ identifier
        else identifier)
  /\ SuiAddress.__init__ (SuiAddress.address (SuiAddress.__init__ identifier))
     = SuiAddress.__init__ identifier.
Proof.
  split; [reflexivity |].
  unfold SuiAddress.__init__. unfold_constants.
  destruct (Nat.eqb_spec (String.length identifier) 40) as [L | L];
    cbn [negb SuiAddress.address].
  - split; [reflexivity |].
    rewrite String_length_append, L. reflexivity.
  - split; [reflexivity |].
    destruct (Nat.eqb_spec (String.length identifier) 40);
      [contradiction | reflexivity].
Qed.

(** X13.  The address is the hexadecimal text of the first 20 bytes of
    the digest: cutting the hexadecimal text at 40 characters is cutting
    the digest at 20 bytes.  With a hash whose digests are 32 bytes long
    those are exactly 20 bytes and the address is "0x" followed by their
    hexadecimal text. *)
Theorem address_is_hex_of_first_20_digest_bytes
    {X : Externals} (first : byte) (rest : list byte) :
  digest_size_law ->
  exists digest,
    digest = sha3_256 (digest_window (first :: rest))
    /\ List.length (firstn 20 digest) = 20
    /\ outcome (SuiAddress.from_bytes (first :: rest))
       = Ok {| SuiAddress.identifier :=
                 "0x" ++ decode_utf8 (hexlify (firstn 20 digest));
               SuiAddress.address :=
                 "0x" ++ decode_utf8 (hexlify (firstn 20 digest)) |}.
Proof.
  intros Hlaw. eexists. split; [reflexivity |].
  split; [rewrite length_firstn, Hlaw; reflexivity |].
  rewrite SuiAddress_from_bytes_cons, outcome_pair.
  rewrite SuiAddress_init_40 by (apply hex40_length; exact Hlaw).
  unfold hex40. change 40 with (2 * 20). rewrite firstn_hexlify.
  reflexivity.
Qed.

(** X14.  [create_new_address].  When [create_new_keypair] raises (the
    constructor has refused the generated bytes), [create_new_address]
    raises the same exception and calls nothing.  When it returns [kp],
    [kp] is a constructed key pair of the requested scheme holding the
    generated bytes, and [create_new_address] returns [kp] with the
    address derived, in one hash call, from the scheme's tag byte and
    [kp]'s public key bytes. *)
Theorem create_new_address_returns_keypair_and_its_address
    {X : Externals} (g : Generated) (keytype : SignatureScheme) :
  match outcome (create_new_keypair g keytype) with
  | Raise e => create_new_address g keytype = ([], Raise e)
  | Ok kp =>
      constructed kp
      /\ KeyPair.scheme kp = keytype
      /\ Key.key_bytes (KeyPair.public_key kp)
         = match keytype with
           | ED25519 => verifier_bytes g
           | SECP256K1 => pubkey_serialized g
           end
      /\ Key.key_bytes (KeyPair.private_key kp)
         = match keytype with
           | ED25519 => signer_bytes g
           | SECP256K1 => signer_private_key g
           end
      /\ create_new_address g keytype
         = ([Call_sha3_256 (scheme_to_bytes keytype
                              ++ Key.key_bytes (KeyPair.public_key kp))%list],
            Ok (kp, SuiAddress.__init__
                      (hex40 (scheme_to_bytes keytype
                                ++ Key.key_bytes (KeyPair.public_key kp))%list)))
  end.
Proof.
  assert (T : trace (create_new_keypair g keytype) = []).
  { destruct keytype; cbn [create_new_keypair];
      [unfold SuiKeyPairED25519_unique | unfold SuiKeyPairSECP256K1_unique].
    - apply (keypair_constructor_trace SuiKeyPairED25519_class).
    - apply (keypair_constructor_trace SuiKeyPairSECP256K1_class). }
  destruct (outcome (create_new_keypair g keytype)) as [kp | e] eqn:E.
  - assert (K : constructed kp).
    { apply constructed_iff. destruct keytype.
      + exists SuiKeyPairED25519_class, (verifier_bytes g), (signer_bytes g).
        exact E.
      + exists SuiKeyPairSECP256K1_class, (pubkey_serialized g),
          (signer_private_key g). exact E. }
    assert (P : kp = keypair_object
                       match keytype with
                       | ED25519 => SuiKeyPairED25519_class
                       | SECP256K1 => SuiKeyPairSECP256K1_class
                       end
                       match keytype with
                       | ED25519 => verifier_bytes g
                       | SECP256K1 => pubkey_serialized g
                       end
                       match keytype with
                       | ED25519 => signer_bytes g
                       | SECP256K1 => signer_private_key g
                       end).
    { destruct keytype; cbn [create_new_keypair] in E;
        [change (outcome (keypair_constructor SuiKeyPairED25519_class
                            (verifier_bytes g) (signer_bytes g)) = Ok kp) in E
        | change (outcome (keypair_constructor SuiKeyPairSECP256K1_class
                             (pubkey_serialized g) (signer_private_key g))
                  = Ok kp) in E];
        apply keypair_constructor_Ok in E; tauto. }
    split; [exact K |].
    split; [rewrite P; destruct keytype; reflexivity |].
    split; [rewrite P; destruct keytype; reflexivity |].
    split; [rewrite P; destruct keytype; reflexivity |].
    unfold create_new_address.
    rewrite (M_eta (create_new_keypair g keytype)), T, E, bind_Ok.
    rewrite SuiAddress_from_bytes_to_bytes by exact K. cbv zeta.
    rewrite bind_Ok.
    replace (KeyPair.scheme kp) with keytype
      by (rewrite P; destruct keytype; reflexivity).
    reflexivity.
  - unfold create_new_address.
    rewrite (M_eta (create_new_keypair g keytype)), T, E. reflexivity.
Qed.

(** X15.  Key-pair decoding never calls the module's hash: on every
    input, neither the key-pair constructors, nor either [from_bytes], nor
    either [from_b64], nor [keypair_from_keystring] call
    [hashlib.sha3_256]; of the functions of the module only address
    derivation does. *)
Theorem keypair_decoders_never_hash
    {X : Externals} (cls : KeyPairClass) (s : string)
    (indata pub priv : list byte) :
  existsb is_Call_sha3_256 (trace (keypair_constructor cls pub priv)) = false
  /\ existsb is_Call_sha3_256 (trace (from_bytes_of cls indata)) = false
  /\ existsb is_Call_sha3_256 (trace (from_b64_of cls s)) = false
  /\ existsb is_Call_sha3_256 (trace (keypair_from_keystring s)) = false.
Proof.
  assert (B : trace (from_b64_of cls s) = []
              \/ trace (from_b64_of cls s) = [Call_b64decode s]).
  { destruct (Nat.eq_dec (String.length s) SUI_KEYPAIR_LEN) as [L | L].
    - right. rewrite (from_b64_of_cases cls s L). reflexivity.
    - left. rewrite (from_b64_of_wrong_length cls s L). reflexivity. }
  pose proof (keypair_from_keystring_trace s) as K.
  rewrite keypair_constructor_trace, from_bytes_of_trace.
  split; [reflexivity |]. split; [reflexivity |].
  split.
  - destruct B as [-> | ->]; reflexivity.
  - destruct K as [-> | ->]; reflexivity.
Qed.

(** * The further properties on the reference instance *)

Lemma ed25519_from_b64_inverts_to_b64_witness :
  outcome (@SuiKeyPairED25519.from_b64 reference
             (@KeyPair.to_b64 reference Sample.ed25519_keypair))
  = Ok Sample.ed25519_keypair.
Proof.
  exact (proj1 (@ed25519_from_b64_inverts_to_b64 reference _
                  reference_constructed_ed25519 eq_refl
                  (reference_codec_faithful _ reference_constructed_ed25519))).
Defined.

Lemma keypair_from_keystring_inverts_to_b64_witness :
  @keypair_from_keystring reference
    (@KeyPair.to_b64 reference Sample.secp256k1_keypair)
  = ([Call_b64decode (@KeyPair.to_b64 reference Sample.secp256k1_keypair)],
     Ok Sample.secp256k1_keypair).
Proof.
  exact (@keypair_from_keystring_inverts_to_b64 reference _
           reference_constructed_secp256k1 reference_codec_secp256k1).
Defined.

Lemma to_bytes_after_from_bytes_witness :
  outcome (@SuiKeyPairSECP256K1.from_bytes reference
             (Sample.secp256k1_public ++ Sample.secp256k1_private))
  = Ok Sample.secp256k1_keypair
  /\ KeyPair.to_bytes Sample.secp256k1_keypair
     = (x01 :: Sample.secp256k1_public ++ Sample.secp256k1_private)%list.
Proof.
  assert (H : outcome (@from_bytes_of reference SuiKeyPairSECP256K1_class
                         (Sample.secp256k1_public
                            ++ Sample.secp256k1_private))
              = Ok Sample.secp256k1_keypair)
    by (vm_compute; reflexivity).
  split; [exact H |].
  exact (proj1 (proj2 (proj2 (proj2
           (@to_bytes_after_from_bytes reference _ _ _ H))))).
Defined.

Lemma from_b64_rejects_other_tag_witness :
  String.length Sample.secp256k1_keystring = SUI_KEYPAIR_LEN
  /\ @SuiKeyPairED25519.from_b64 reference Sample.secp256k1_keystring
     = ([Call_b64decode Sample.secp256k1_keystring],
        Raise (SuiInvalidKeyPair "Scheme not ED25519")).
Proof.
  assert (L : String.length Sample.secp256k1_keystring = SUI_KEYPAIR_LEN)
    by reflexivity.
  assert (D : @b64decode reference Sample.secp256k1_keystring
              = inr (x01 :: Sample.secp256k1_public
                       ++ Sample.secp256k1_private)%list)
    by (vm_compute; reflexivity).
  assert (T : byte_val x01 <> scheme_value (keypair_scheme
                                              SuiKeyPairED25519_class))
    by (vm_compute; discriminate).
  split; [exact L |].
  exact (@from_b64_rejects_other_tag reference SuiKeyPairED25519_class
           _ _ _ L D T).
Defined.

Lemma from_b64_returns_only_ed25519_witness :
  outcome (@SuiKeyPairSECP256K1.from_b64 reference
             (Reference.b2a_base64
                (x01 :: Sample.ed25519_public ++ Sample.ed25519_private)))
  = Ok Sample.ed25519_keypair
  /\ KeyPair.__class__ Sample.ed25519_keypair = SuiKeyPairED25519_class.
Proof.
  assert (H : outcome (@from_b64_of reference SuiKeyPairSECP256K1_class
                         (Reference.b2a_base64
                            (x01 :: Sample.ed25519_public
                               ++ Sample.ed25519_private)))
              = Ok Sample.ed25519_keypair)
    by (vm_compute; reflexivity).
  split; [exact H |].
  exact (proj1 (@from_b64_returns_only_ed25519 reference _ _ _ H)).
Defined.

Lemma decoders_on_text_without_payload_witness :
  String.length Sample.blank_keystring = SUI_KEYPAIR_LEN
  /\ @b64decode reference Sample.blank_keystring = inr []
  /\ @keypair_from_keystring reference Sample.blank_keystring
     = ([Call_b64decode Sample.blank_keystring], Raise IndexError).
Proof.
  assert (L : String.length Sample.blank_keystring = SUI_KEYPAIR_LEN)
    by reflexivity.
  assert (D : @b64decode reference Sample.blank_keystring = inr [])
    by (vm_compute; reflexivity).
  split; [exact L |]. split; [exact D |].
  exact (proj1 (proj2 (proj2 (@decoders_on_text_without_payload reference
                                SuiKeyPairED25519_class _ L) D))).
Defined.

Lemma constructed_keypair_invariant_witness :
  @constructed reference Sample.secp256k1_keypair
  /\ List.length (KeyPair.to_bytes Sample.secp256k1_keypair) = 66.
Proof.
  split; [exact reference_constructed_secp256k1 |].
  exact (proj1 (proj2 (proj2 (proj2 (proj2 (proj2 (proj2 (proj2
           (@constructed_keypair_invariant reference _
              reference_constructed_secp256k1))))))))).
Defined.

Lemma keypair_constructor_rejects_wrong_length_witness :
  exists e,
    outcome (@keypair_constructor reference SuiKeyPairSECP256K1_class
               Sample.secp256k1_public (Sample.secp256k1_private ++ [x00]))
    = Raise e.
Proof.
  assert (H : List.length Sample.secp256k1_public
              <> class_length (public_key_class SuiKeyPairSECP256K1_class)
              \/ List.length (Sample.secp256k1_private ++ [x00])
                 <> class_length
                      (private_key_class SuiKeyPairSECP256K1_class))
    by (right; vm_compute; lia).
  exact (proj1 (@keypair_constructor_rejects_wrong_length reference
                  SuiKeyPairSECP256K1_class _ _ H)).
Defined.

Example address_of_three_bytes :
  @SuiAddress.from_bytes reference [x01; x02; x03]
  = ([Call_sha3_256 [x01; x02; x03]],
     Ok (SuiAddress.__init__
           (decode_utf8
              (firstn 40
                 (hexlify (Reference.hashlib_sha3_256 [x01; x02; x03])))))).
Proof. vm_compute. reflexivity. Qed.

(** [from_keypair_string] accepts text that [address_from_keystring]
    rejects. *)
Example from_keypair_string_accepts_short_text :
  outcome (@address_from_keystring reference "AQID")
  = Raise (SuiInvalidKeystringLength 4)
  /\ @SuiAddress.from_keypair_string reference "AQID"
     = ([Call_b64decode "AQID"; Call_sha3_256 [x01; x02; x03]],
        Ok (SuiAddress.__init__
              (decode_utf8
                 (firstn 40
                    (hexlify
                       (Reference.hashlib_sha3_256 [x01; x02; x03])))))).
Proof. split; vm_compute; reflexivity. Qed.

Lemma address_from_keystring_of_to_b64_witness :
  outcome (@address_from_keystring reference
             (@KeyPair.to_b64 reference Sample.secp256k1_keypair))
  = Ok {| SuiAddress.identifier :=
            "0x6458f7674c0b0261495bd7325fa0d0c11d2ce144";
          SuiAddress.address :=
            "0x6458f7674c0b0261495bd7325fa0d0c11d2ce144" |}.
Proof.
  destruct (@address_from_keystring_of_to_b64 reference _
              reference_constructed_secp256k1 reference_codec_secp256k1)
    as (addr & A & _ & _ & E).
  rewrite A, E. vm_compute. reflexivity.
Defined.

Lemma address_is_hex_of_first_20_digest_bytes_witness :
  @digest_size_law reference
  /\ exists digest,
       digest = @sha3_256 reference (digest_window (repeat x00 34))
       /\ List.length (firstn 20 digest) = 20
       /\ outcome (@SuiAddress.from_bytes reference (repeat x00 34))
          = Ok {| SuiAddress.identifier :=
                    "0x" ++ decode_utf8 (hexlify (firstn 20 digest));
                  SuiAddress.address :=
                    "0x" ++ decode_utf8 (hexlify (firstn 20 digest)) |}.
Proof.
  split; [exact reference_digest_size |].
  exact (@address_is_hex_of_first_20_digest_bytes reference x00
           (repeat x00 33) reference_digest_size).
Defined.

Example create_new_address_on_generated_bytes :
  @create_new_address reference Sample.generated SECP256K1
  = ([Call_sha3_256 (x01 :: Sample.secp256k1_public)],
     Ok (Sample.secp256k1_keypair,
         {| SuiAddress.identifier :=
              "0x6458f7674c0b0261495bd7325fa0d0c11d2ce144";
            SuiAddress.address :=
              "0x6458f7674c0b0261495bd7325fa0d0c11d2ce144" |}))
  /\ outcome (@create_new_address reference Sample.generated ED25519)
     = Ok (Sample.ed25519_keypair,
           {| SuiAddress.identifier :=
                "0xd6aa4fbf772d5c24d70821f8d7b4c451483e5f44";
              SuiAddress.address :=
                "0xd6aa4fbf772d5c24d70821f8d7b4c451483e5f44" |}).
Proof. split; vm_compute; reflexivity. Qed.

Lemma to_bytes_after_keypair_from_keystring_witness :
  outcome (@keypair_from_keystring reference Sample.ed25519_keystring)
  = Ok Sample.ed25519_keypair
  /\ @b64decode reference Sample.ed25519_keystring
     = inr (KeyPair.to_bytes Sample.ed25519_keypair).
Proof.
  assert (H : outcome (@keypair_from_keystring reference
                         Sample.ed25519_keystring)
              = Ok Sample.ed25519_keypair)
    by (vm_compute; reflexivity).
  split; [exact H |].
  exact (proj2 (proj2 (@to_bytes_after_keypair_from_keystring reference
                         _ _ H))).
Defined.

(** ** [address_from_keystring] and the errors of [from_b64] *)

(** C8 fails as stated: on "AQID" (four characters)
    [address_from_keystring] raises [SuiInvalidKeystringLength], and on a
    key string with the tag 2 it raises [NotImplementedError]; on the same
    two strings both [from_b64] methods raise [SuiInvalidKeyPair]. *)
Lemma address_from_keystring_errors_are_not_those_of_from_b64 :
  outcome (@address_from_keystring reference "AQID")
  = Raise (SuiInvalidKeystringLength 4)
  /\ outcome (@SuiKeyPairED25519.from_b64 reference "AQID")
     = Raise (SuiInvalidKeyPair "Expect str len of 88")
  /\ outcome (@SuiKeyPairSECP256K1.from_b64 reference "AQID")
     = Raise (SuiInvalidKeyPair "Expect str len of 88")
  /\ String.length (Reference.b2a_base64 (x02 :: repeat x00 64))
     = SUI_KEYPAIR_LEN
  /\ outcome (@address_from_keystring reference
                (Reference.b2a_base64 (x02 :: repeat x00 64)))
     = Raise NotImplementedError
  /\ outcome (@SuiKeyPairED25519.from_b64 reference
                (Reference.b2a_base64 (x02 :: repeat x00 64)))
     = Raise (SuiInvalidKeyPair "Scheme not ED25519")
  /\ outcome (@SuiKeyPairSECP256K1.from_b64 reference
                (Reference.b2a_base64 (x02 :: repeat x00 64)))
     = Raise (SuiInvalidKeyPair "Scheme not SECP256K1").
Proof. repeat split; vm_compute; reflexivity. Qed.

Lemma address_from_keystring_validates_first_witness :
  @digest_size_law reference
  /\ @constructed reference Sample.ed25519_keypair
  /\ outcome (@keypair_from_keystring reference
                (@KeyPair.to_b64 reference Sample.ed25519_keypair))
     = Ok Sample.ed25519_keypair
  /\ outcome (@address_from_keystring reference
                (@KeyPair.to_b64 reference Sample.ed25519_keypair))
     = Ok {| SuiAddress.identifier :=
               "0xd6aa4fbf772d5c24d70821f8d7b4c451483e5f44";
             SuiAddress.address :=
               "0xd6aa4fbf772d5c24d70821f8d7b4c451483e5f44" |}.
Proof.
  split; [exact reference_digest_size |].
  split; [exact reference_constructed_ed25519 |].
  destruct (proj2 (@address_from_keystring_validates_first reference
                     reference_digest_size)
              Sample.ed25519_keypair reference_constructed_ed25519
              (reference_codec_faithful _ reference_constructed_ed25519))
    as (K & A).
  split; [exact K |].
  rewrite A. vm_compute. reflexivity.
Defined.
